(** * Azure service-tag EDL generator: a model of [edl_generator.py]

    The development embeds the functions of [src/edl_generator.py] and proves
    the properties its specification states about them.

    Conventions of the model.
    - Python [str] values are Rocq strings, read as sequences of code points
      below 256; [bytes] values are strings too.
    - A decoded JSON document is a value of [json]; a Python [dict] is an
      association list in insertion order, looked up by its first binding.
    - Functions that can raise return a [result]; functions that touch the
      file system, the network or the diagnostic stream run in the monad
      [Py], which threads a [world] and keeps it when an exception is raised.
    - The Python standard library calls whose behaviour is not the program's
      own ([ipaddress.ip_network], [str()] of a non-string value, [urlopen],
      [bytes.decode], [json.loads]) are variables of the sections that use
      them. *)

From Stdlib Require Import Ascii String ZArith SpecFloat DecimalString Sorted Permutation.
From stdpp Require Import gmap strings list.

(** ** Text helpers: the [str] methods the program calls *)

Module Str.

Fixpoint map (f : ascii → ascii) (s : string) : string :=
  match s with
  | EmptyString => EmptyString
  | String a s' => String (f a) (map f s')
  end.

(** [s.replace(a, b)] for one-character [a] and [b]. *)
Definition replace_char (a b : ascii) (s : string) : string :=
  map (λ c, if Ascii.eqb c a then b else c) s.

(** [chr(c).lower()] on code points below 256. *)
Definition lower_char (c : ascii) : ascii :=
  let n := N_of_ascii c in
  if ((65 <=? n) && (n <=? 90) || (192 <=? n) && (n <=? 222) && negb (n =? 215))%N
  then ascii_of_N (n + 32) else c.

Definition lower (s : string) : string := map lower_char s.

Fixpoint lstrip (c : ascii) (s : string) : string :=
  match s with
  | EmptyString => EmptyString
  | String a s' => if Ascii.eqb a c then lstrip c s' else s
  end.

Fixpoint rstrip (c : ascii) (s : string) : string :=
  match s with
  | EmptyString => EmptyString
  | String a s' =>
      let r := rstrip c s' in
      if Ascii.eqb a c && String.eqb r "" then EmptyString else String a r
  end.

Definition strip (c : ascii) (s : string) : string := rstrip c (lstrip c s).

(** [s.split(c)]: never empty, one more piece than occurrences of [c]. *)
Fixpoint split (c : ascii) (s : string) : list string :=
  match s with
  | EmptyString => [EmptyString]
  | String a s' =>
      if Ascii.eqb a c then EmptyString :: split c s'
      else match split c s' with
           | h :: t => String a h :: t
           | [] => [String a EmptyString]
           end
  end.

(** [sep.join(l)]. *)
Definition join (sep : string) (l : list string) : string := String.concat sep l.

(** [list(s)]: the one-character strings of [s]. *)
Fixpoint chars (s : string) : list string :=
  match s with
  | EmptyString => []
  | String a s' => String a EmptyString :: chars s'
  end.

(** [bool(s)]. *)
Definition truthy (s : string) : bool := negb (String.eqb s "").

(** [s.startswith(p)], returning the rest of [s] after [p]. *)
Fixpoint strip_prefix (p s : string) : option string :=
  match p, s with
  | EmptyString, _ => Some s
  | String a p', String b s' => if Ascii.eqb a b then strip_prefix p' s' else None
  | String _ _, EmptyString => None
  end.

End Str.

(** ** Exceptions and results *)

Inductive exn :=
| AttributeError
| TypeError
| ValueError (msg : string)
| RuntimeError (msg : string)
| URLError (url : string)
| DecodeError
| FileNotFoundError
| NotADirectoryError
| IsADirectoryError
| FileExistsError.

Inductive result (A : Type) :=
| Ok (a : A)
| Raise (e : exn).
Arguments Ok {A} a.
Arguments Raise {A} e.

Definition rbind {A B} (r : result A) (k : A → result B) : result B :=
  match r with
  | Ok a => k a
  | Raise e => Raise e
  end.

(** ** JSON values as [json.loads] builds them *)

#[local] Set Warnings "-register-all".

Inductive json :=
| JNull
| JBool (b : bool)
| JInt (n : Z)
| JFloat (f : spec_float)
| JString (s : string)
| JArray (xs : list json)
| JObject (kvs : list (string * json)).

(** [bool(v)]: [None], [False], zero, and the empty string, list and dict are
    false. *)
Definition truthy (v : json) : bool :=
  match v with
  | JNull => false
  | JBool b => b
  | JInt n => negb (n =? 0)%Z
  | JFloat (S754_zero _) => false
  | JFloat _ => true
  | JString s => Str.truthy s
  | JArray [] => false
  | JArray (_ :: _) => true
  | JObject [] => false
  | JObject (_ :: _) => true
  end.

Fixpoint dict_lookup (k : string) (kvs : list (string * json)) : option json :=
  match kvs with
  | [] => None
  | (k', v) :: rest => if String.eqb k k' then Some v else dict_lookup k rest
  end.

(** [v.get(k, dflt)]: only a dict has the method. *)
Definition py_get (v : json) (k : string) (dflt : json) : result json :=
  match v with
  | JObject kvs => Ok (default dflt (dict_lookup k kvs))
  | _ => Raise AttributeError
  end.

(** [a or b]. *)
Definition py_or (a b : json) : json := if truthy a then a else b.

(** ** [extract_values] *)

Definition no_values_msg : string :=
  "ServiceTags JSON does not contain a 'values' or 'value' list.".

Definition extract_values (root : json) : result (list json) :=
  rbind (py_get root "values" JNull) (λ a,
  rbind (py_get root "value" JNull) (λ b,
    match py_or a b with
    | JArray xs => Ok xs
    | _ => Raise (ValueError no_values_msg)
    end)).

(** ** Paths: [pathlib] on a POSIX system

    A path is its root ([""], ["/"] or ["//"]) and its components; building
    one from a string drops empty and ["."] components. *)

Record Path := MkPath { path_root : string; path_parts : list string }.

#[global] Instance Path_eq_dec : EqDecision Path.
Proof. solve_decision. Defined.

#[global] Instance Path_countable : Countable Path.
Proof.
  apply (inj_countable' (λ p, (path_root p, path_parts p))
                        (λ rp, MkPath rp.1 rp.2)).
  by intros [].
Defined.

Definition parse_root (s : string) : string :=
  match s with
  | String "/" (String "/" (String "/" _)) => "/"
  | String "/" (String "/" _) => "//"
  | String "/" _ => "/"
  | _ => ""
  end.

Definition parse_parts (s : string) : list string :=
  filter (λ c, c ≠ "" ∧ c ≠ ".") (Str.split "/" s).

(** [Path(s)]. *)
Definition parse_path (s : string) : Path := MkPath (parse_root s) (parse_parts s).

(** [p / seg] for a string [seg]: a rooted segment replaces [p]. *)
Definition joinpath (p : Path) (seg : string) : Path :=
  let q := parse_path seg in
  if Str.truthy (path_root q) then q
  else MkPath (path_root p) (path_parts p ++ path_parts q).

(** [p.as_posix()], which is also [str(p)]. *)
Definition as_posix (p : Path) : string :=
  match path_root p, path_parts p with
  | EmptyString, [] => "."
  | r, ps => r +:+ Str.join "/" ps
  end.

(** [p.parent]. *)
Definition parent (p : Path) : Path := MkPath (path_root p) (removelast (path_parts p)).

(** The directories [p.mkdir(parents=True)] makes sure exist: [p] and its
    ancestors below the root or the current directory. *)
Fixpoint ancestors_from (r : string) (seen todo : list string) : list Path :=
  match todo with
  | [] => []
  | c :: todo' => MkPath r (seen ++ [c]) :: ancestors_from r (seen ++ [c]) todo'
  end.

Definition self_and_ancestors (p : Path) : list Path :=
  ancestors_from (path_root p) [] (path_parts p).

(** ** The world a run acts on

    [files] maps each path to the content last written there, [dirs] holds the
    directories the run created, [stderr] the diagnostic lines in order and
    [requests] the URLs opened in order. Opening a file for writing succeeds
    in the model: permissions and the directory layout on disk are outside
    it. *)

Record world := World {
  files : gmap Path string;
  dirs : gset Path;
  stderr : list string;
  requests : list string
}.

Definition Py (A : Type) : Type := world → result A * world.

#[global] Instance Py_ret : MRet Py := λ A a w, (Ok a, w).

#[global] Instance Py_bind : MBind Py := λ A B k m w,
  match m w with
  | (Ok a, w') => k a w'
  | (Raise e, w') => (Raise e, w')
  end.

Definition raise {A} (e : exn) : Py A := λ w, (Raise e, w).

Definition lift {A} (r : result A) : Py A := λ w, (r, w).

(** [print(line, file=sys.stderr)]. *)
Definition eprint (line : string) : Py unit := λ w,
  (Ok (), World (files w) (dirs w) (stderr w ++ [line]) (requests w)).

(** [p.mkdir(parents=True, exist_ok=True)]. *)
Definition mkdir_parents (p : Path) : Py unit := λ w,
  (Ok (), World (files w) (dirs w ∪ list_to_set (self_and_ancestors p)) (stderr w) (requests w)).

(** Opening [p] with mode ["w"], writing [content] and closing: the file is
    truncated, so its old content plays no part. *)
Definition write_file (p : Path) (content : string) : Py unit := λ w,
  (Ok (), World (<[p := content]> (files w)) (dirs w) (stderr w) (requests w)).

Definition nl : string := String (ascii_of_nat 10) EmptyString.

(** Decimal rendering of a count, as an f-string does. *)
Definition show_nat (n : nat) : string := NilEmpty.string_of_uint (Nat.to_uint n).

(** ** [normalise_filename] *)

Definition normalise_filename (tag_name : string) : string :=
  Str.replace_char " " "_" tag_name.

(** A [str] method called on a dynamically typed value: values of another
    type lack the method and the call raises. *)
Definition as_str (v : json) : result string :=
  match v with
  | JString s => Ok s
  | _ => Raise AttributeError
  end.

(** [list(v)] and [for x in v]: a string yields its characters, a dict its
    keys; numbers, booleans and [None] are not iterable. *)
Definition py_iter (v : json) : result (list json) :=
  match v with
  | JString s => Ok (JString <$> Str.chars s)
  | JArray xs => Ok xs
  | JObject kvs => Ok ((λ kv, JString kv.1) <$> kvs)
  | _ => Raise TypeError
  end.

(** [name in tags] for a list of strings: a value of another type equals no
    string. *)
Definition py_in (name : json) (tags : list string) : bool :=
  match name with
  | JString s => existsb (String.eqb s) tags
  | _ => false
  end.

(** [bool(tags)] for an optional list: [None] and the empty list are false. *)
Definition tags_truthy (tags : option (list string)) : bool :=
  match tags with
  | Some (_ :: _) => true
  | _ => false
  end.

Inductive ip_version := V4 | V6.

#[global] Instance ip_version_eq_dec : EqDecision ip_version.
Proof. solve_decision. Defined.

(** ** The list builder *)

Section ListBuilder.

(** [ipaddress.ip_network(pfx, strict=False)]: [None] when it raises
    [ValueError], else the version of the network. *)
Variable ip_network : json → option ip_version.

(** [str(v)] for a value that is not a string. *)
Variable py_repr : json → string.

(** What an f-string puts for [{v}]. *)
Definition fmt (v : json) : string :=
  match v with
  | JString s => s
  | _ => py_repr v
  end.

(** The text [write_prefix_file] puts in a file: each prefix and a newline. *)
Definition render (prefixes : list json) : string :=
  String.concat "" ((λ pfx, fmt pfx +:+ nl) <$> prefixes).

Fixpoint split_loop (todo ipv4 ipv6 : list json) : Py (list json * list json) :=
  match todo with
  | [] => mret (ipv4, ipv6)
  | pfx :: rest =>
      match ip_network pfx with
      | None =>
          eprint ("Skipping unrecognised address prefix: " +:+ fmt pfx) ;;
          split_loop rest ipv4 ipv6
      | Some V4 => split_loop rest (ipv4 ++ [pfx]) ipv6
      | Some V6 => split_loop rest ipv4 (ipv6 ++ [pfx])
      end
  end.

Definition split_prefixes_by_ip_version (prefixes : json) : Py (list json * list json) :=
  todo ← lift (py_iter prefixes);
  split_loop todo [] [].

Definition write_prefix_file (path : Path) (prefixes : json) : Py nat :=
  prefixes_list ← lift (py_iter prefixes);
  write_file path (render prefixes_list) ;;
  mret (length prefixes_list).

Section Build.

Variable output_dir : Path.
Variables include_tags exclude_tags : option (list string).

(** One turn of the loop of [build_edls]. *)
Definition build_edls_body (tag : json) (written_entries : list (string * string))
  : Py (list (string * string)) :=
  name ← lift (py_get tag "name" JNull);
  props ← lift (py_get tag "properties" (JObject []));
  prefixes ← lift (py_get props "addressPrefixes" (JArray []));
  if negb (truthy name) || negb (truthy prefixes) then mret written_entries
  else if tags_truthy include_tags && negb (py_in name (default [] include_tags))
  then mret written_entries
  else if tags_truthy exclude_tags && py_in name (default [] exclude_tags)
  then mret written_entries
  else
    name_s ← lift (as_str name);
    let base_name := normalise_filename name_s in
    let base_path := joinpath output_dir (base_name +:+ ".txt") in
    let ipv4_path := joinpath output_dir (base_name +:+ "-v4.txt") in
    let ipv6_path := joinpath output_dir (base_name +:+ "-v6.txt") in
    total_count ← write_prefix_file base_path prefixes;
    '(ipv4_prefixes, ipv6_prefixes) ← split_prefixes_by_ip_version prefixes;
    ipv4_count ← write_prefix_file ipv4_path (JArray ipv4_prefixes);
    ipv6_count ← write_prefix_file ipv6_path (JArray ipv6_prefixes);
    eprint ("Wrote " +:+ as_posix base_path +:+ " (total=" +:+ show_nat total_count
            +:+ ", v4=" +:+ show_nat ipv4_count
            +:+ ", v6=" +:+ show_nat ipv6_count +:+ ")") ;;
    mret (written_entries ++ [(name_s, base_name)]).

Fixpoint build_edls_loop (values : list json) (written_entries : list (string * string))
  : Py (list (string * string)) :=
  match values with
  | [] => mret written_entries
  | tag :: rest =>
      written_entries' ← build_edls_body tag written_entries;
      build_edls_loop rest written_entries'
  end.

Definition build_edls (values : list json) : Py (list (string * string)) :=
  mkdir_parents output_dir ;;
  build_edls_loop values [].

End Build.

End ListBuilder.

(** ** The index writer *)

(** The order [sorted(entries, key=lambda item: item[0].lower())] sorts by. *)
Definition key_le (a b : string * string) : bool :=
  String.leb (Str.lower a.1) (Str.lower b.1).

(** [sorted] is a stable sort: an entry goes before the first entry whose key
    is not smaller, so entries with equal keys keep their order. *)
Fixpoint insert_entry (x : string * string) (l : list (string * string))
  : list (string * string) :=
  match l with
  | [] => [x]
  | y :: l' => if key_le x y then x :: y :: l' else y :: insert_entry x l'
  end.

Definition sorted_entries (entries : list (string * string)) : list (string * string) :=
  foldr insert_entry [] entries.

(** The labels of the three variants and the suffixes of their files. *)
Definition variants : list (string * string) :=
  [("all", ""); ("ipv4", "-v4"); ("ipv6", "-v6")].

Definition index_line (url_prefix name base_name : string) (variant : string * string)
  : string :=
  let filename := base_name +:+ variant.2 +:+ ".txt" in
  let url := url_prefix +:+ "/" +:+ filename in
  name +:+ "," +:+ url +:+ "," +:+ variant.1.

Definition index_lines (url_prefix : string) (entries : list (string * string))
  : list string :=
  entry ← sorted_entries entries;
  index_line url_prefix entry.1 entry.2 <$> variants.

Definition url_prefix_of (output_dir : Path) (base_url : string) : string :=
  let base_url := Str.rstrip "/" base_url in
  let relative_dir := Str.strip "/" (as_posix output_dir) in
  if Str.truthy relative_dir then base_url +:+ "/" +:+ relative_dir else base_url.

Definition write_url_index (entries : list (string * string)) (output_dir : Path)
    (base_url : string) (index_path : Path) : Py unit :=
  let lines := index_lines (url_prefix_of output_dir base_url) entries in
  mkdir_parents (parent index_path) ;;
  write_file index_path (Str.join nl lines +:+ nl) ;;
  eprint ("Wrote URL index to " +:+ as_posix index_path).

(** ** The source locator *)

Definition DETAILS_URL : string :=
  "https://www.microsoft.com/en-us/download/details.aspx?id=56519".
Definition CONFIRM_URL : string :=
  "https://www.microsoft.com/en-us/download/confirmation.aspx?id=56519".

(** [JSON_URL_PATTERN] is the text [url_head], any run of characters other
    than a double quote, the text [url_stem], one or more digits and the text
    [url_ext]. *)
Definition url_head : string := "https://download.microsoft.com/download/".
Definition url_stem : string := "ServiceTags_Public_".
Definition url_ext : string := ".json".
Definition dquote : ascii := "034".

Definition is_digit (c : ascii) : bool :=
  let n := N_of_ascii c in ((48 <=? n) && (n <=? 57))%N.

(** The longest run of digits at the start of [s], and what follows it. *)
Fixpoint take_digits (s : string) : string * string :=
  match s with
  | EmptyString => (EmptyString, EmptyString)
  | String c s' =>
      if is_digit c then let '(ds, rest) := take_digits s' in (String c ds, rest)
      else (EmptyString, s)
  end.

(** A match of the stem, the digits and the extension at the start of [s].
    Only the longest run of digits can be followed by the extension. *)
Definition match_tail (s : string) : option string :=
  s1 ← Str.strip_prefix url_stem s;
  let '(ds, s2) := take_digits s1 in
  if Str.truthy ds then
    _ ← Str.strip_prefix url_ext s2; Some (url_stem +:+ ds +:+ url_ext)
  else None.

(** A match of the greedy run of non-quote characters and the tail at the
    start of [s]: the longest run is tried first. *)
Fixpoint match_body (s : string) : option string :=
  match s with
  | EmptyString => match_tail s
  | String c s' =>
      if Ascii.eqb c dquote then match_tail s
      else match match_body s' with
           | Some m => Some (String c m)
           | None => match_tail s
           end
  end.

Definition match_at (s : string) : option string :=
  rest ← Str.strip_prefix url_head s;
  m ← match_body rest;
  Some (url_head +:+ m).

(** [re.search]: the match at the leftmost position that has one. *)
Fixpoint re_search (s : string) : option string :=
  match match_at s with
  | Some m => Some m
  | None =>
      match s with
      | EmptyString => None
      | String _ s' => re_search s'
      end
  end.

Definition find_json_url (html : string) : option string := re_search html.

(** [bool(u)] for an optional string. *)
Definition url_truthy (u : option string) : bool :=
  match u with
  | Some s => Str.truthy s
  | None => false
  end.

Definition not_found_msg : string :=
  "Could not find ServiceTags_Public JSON URL on Microsoft download pages.".

Section Driver.

(** [urlopen(url).read()]: [None] when the transfer fails. *)
Variable http_get : string → option string.
(** [b.decode("utf-8", errors="ignore")]. *)
Variable decode_ignore : string → string.
(** [json.loads(b.decode("utf-8"))]: [None] when either step raises. *)
Variable json_loads : string → option json.
Variable ip_network : json → option ip_version.
Variable py_repr : json → string.

Definition urlopen (url : string) : Py string := λ w,
  let w' := World (files w) (dirs w) (stderr w) (requests w ++ [url]) in
  match http_get url with
  | Some body => (Ok body, w')
  | None => (Raise (URLError url), w')
  end.

Definition fetch_url (url : string) : Py string :=
  content_bytes ← urlopen url;
  mret (decode_ignore content_bytes).

Definition download_servicetags_json (save_path : option Path) : Py json :=
  html ← fetch_url DETAILS_URL;
  let json_url := find_json_url html in
  json_url ← (if negb (url_truthy json_url)
              then html ← fetch_url CONFIRM_URL; mret (find_json_url html)
              else mret json_url);
  if negb (url_truthy json_url) then raise (RuntimeError not_found_msg)
  else
    let json_url := default "" json_url in
    eprint ("Found ServiceTags JSON URL: " +:+ json_url) ;;
    data_bytes ← urlopen json_url;
    match save_path with
    | Some p =>
        write_file p data_bytes ;;
        eprint ("Saved raw ServiceTags JSON to " +:+ as_posix p)
    | None => mret ()
    end ;;
    match json_loads data_bytes with
    | Some data => mret data
    | None => raise DecodeError
    end.

(** The parsed command line. *)
Record args := Args {
  arg_output_dir : string;
  arg_include_tags : option (list string);
  arg_exclude_tags : option (list string);
  arg_save_json : option string;
  arg_url_index : option string;
  arg_url_base : string
}.

Definition main (a : args) : Py Z :=
  let output_dir := parse_path (arg_output_dir a) in
  let save_json_path :=
    if url_truthy (arg_save_json a)
    then Some (parse_path (default "" (arg_save_json a))) else None in
  root ← download_servicetags_json save_json_path;
  values ← lift (extract_values root);
  entries ← build_edls ip_network py_repr output_dir
              (arg_include_tags a) (arg_exclude_tags a) values;
  (if url_truthy (arg_url_index a)
   then write_url_index entries output_dir (arg_url_base a)
          (parse_path (default "" (arg_url_index a)))
   else mret ()) ;;
  mret 0%Z.

End Driver.

(** ** Notions used by the statements *)

(** The name and the prefix list of a record, as the loop of [build_edls]
    reads them: a missing name reads as [None], missing properties as an empty
    dict and a missing prefix list as an empty list. *)
Definition tag_fields (tag : json) : result (json * json) :=
  rbind (py_get tag "name" JNull) (λ name,
  rbind (py_get tag "properties" (JObject [])) (λ props,
  rbind (py_get props "addressPrefixes" (JArray [])) (λ prefixes,
    Ok (name, prefixes)))).

(** A record of the documented shape: an object whose name is a string, null
    or missing, whose properties, when present, are an object, and whose
    prefix list is a list, null or missing. *)
Definition record_ok (tag : json) : bool :=
  match tag_fields tag with
  | Ok (JNull, JArray _) | Ok (JString _, JArray _)
  | Ok (JNull, JNull) | Ok (JString _, JNull) => true
  | _ => false
  end.

(** The two name filters of [build_edls], as one test on the name. *)
Definition passes_filters (include_tags exclude_tags : option (list string))
    (name : json) : bool :=
  negb (tags_truthy include_tags && negb (py_in name (default [] include_tags)))
  && negb (tags_truthy exclude_tags && py_in name (default [] exclude_tags)).

(** The pair a record contributes to the result of [build_edls], if any. *)
Definition entry_of (include_tags exclude_tags : option (list string)) (tag : json)
  : option (string * string) :=
  match tag_fields tag with
  | Ok (JString s, prefixes) =>
      if truthy (JString s) && truthy prefixes
         && passes_filters include_tags exclude_tags (JString s)
      then Some (s, normalise_filename s) else None
  | _ => None
  end.

(** The prefixes of a list that the library parses as networks of version
    [v], in the order of the list. *)
Definition of_version (ip_network : json → option ip_version) (v : ip_version)
    (prefixes : list json) : list json :=
  filter (λ pfx, ip_network pfx = Some v) prefixes.

(** Writing a sequence of files, in order, over a file store. *)
Definition put_all (writes : list (Path * string)) (fs : gmap Path string)
  : gmap Path string :=
  foldl (λ acc pc, <[pc.1 := pc.2]> acc) fs writes.

(** A computation whose result and whose file writes do not depend on the
    world it starts from: it never reads a file back. *)
Definition blind {A} (m : Py A) : Prop :=
  ∃ (r : result A) (writes : list (Path * string)),
    ∀ w, (m w).1 = r ∧ files (m w).2 = put_all writes (files w).

(** The replacement [normalise_filename] applies to each character. *)
Definition space_to_underscore (c : ascii) : ascii :=
  if Ascii.eqb c " " then "_"%char else c.

(** The URL of a file of the index as the specification words it: the base
    URL without its trailing slashes, a slash, the directory without its
    leading and trailing slashes, a slash, the file name. *)
Definition worded_url (base_url : string) (output_dir : Path) (filename : string)
  : string :=
  Str.rstrip "/" base_url +:+ "/" +:+ Str.strip "/" (as_posix output_dir)
    +:+ "/" +:+ filename.

(** The URL the index holds: the directory and its slash are left out when
    the stripped directory is empty. *)
Definition index_url (base_url : string) (output_dir : Path) (filename : string)
  : string :=
  if Str.truthy (Str.strip "/" (as_posix output_dir))
  then worded_url base_url output_dir filename
  else Str.rstrip "/" base_url +:+ "/" +:+ filename.

(** The entries of [l] whose sort key is [k], in the order of [l]. *)
Definition with_key (k : string) (l : list (string * string)) : list (string * string) :=
  filter (λ e, Str.lower e.1 = k) l.

(** The diagnostic lines [split_prefixes_by_ip_version] prints for a list. *)
Definition skip_lines (ip_network : json → option ip_version) (py_repr : json → string)
    (prefixes : list json) : list string :=
  (λ pfx, "Skipping unrecognised address prefix: " +:+ fmt py_repr pfx)
    <$> filter (λ pfx, ip_network pfx = None) prefixes.

(** The three files of a tag, from the base of their names. *)
Definition base_path (output_dir : Path) (base_name : string) : Path :=
  joinpath output_dir (base_name +:+ ".txt").
Definition ipv4_path (output_dir : Path) (base_name : string) : Path :=
  joinpath output_dir (base_name +:+ "-v4.txt").
Definition ipv6_path (output_dir : Path) (base_name : string) : Path :=
  joinpath output_dir (base_name +:+ "-v6.txt").

(** The summary line [build_edls] prints for a tag. *)
Definition wrote_line (ip_network : json → option ip_version) (output_dir : Path)
    (base_name : string) (prefixes : list json) : string :=
  "Wrote " +:+ as_posix (base_path output_dir base_name)
  +:+ " (total=" +:+ show_nat (length prefixes)
  +:+ ", v4=" +:+ show_nat (length (of_version ip_network V4 prefixes))
  +:+ ", v6=" +:+ show_nat (length (of_version ip_network V6 prefixes)) +:+ ")".

(** The world after the files of one tag are written. *)
Definition after_tag (ip_network : json → option ip_version) (py_repr : json → string)
    (output_dir : Path) (base_name : string) (prefixes : list json) (w : world) : world :=
  World
    (<[ipv6_path output_dir base_name :=
         render py_repr (of_version ip_network V6 prefixes)]>
       (<[ipv4_path output_dir base_name :=
            render py_repr (of_version ip_network V4 prefixes)]>
          (<[base_path output_dir base_name := render py_repr prefixes]> (files w))))
    (dirs w)
    (stderr w ++ skip_lines ip_network py_repr prefixes
       ++ [wrote_line ip_network output_dir base_name prefixes])
    (requests w).

(** The world after [build_edls] has dealt with a record of the documented
    shape: a record that passes every test gets its files, any other leaves
    the world as it is. *)
Definition tag_effect (ip_network : json → option ip_version) (py_repr : json → string)
    (output_dir : Path) (include_tags exclude_tags : option (list string))
    (w : world) (tag : json) : world :=
  match tag_fields tag with
  | Ok (JString s, JArray l) =>
      if truthy (JString s) && truthy (JArray l)
         && passes_filters include_tags exclude_tags (JString s)
      then after_tag ip_network py_repr output_dir (normalise_filename s) l w
      else w
  | _ => w
  end.

(** The world after [output_dir.mkdir(parents=True, exist_ok=True)]. *)
Definition after_mkdir (p : Path) (w : world) : world :=
  World (files w) (dirs w ∪ list_to_set (self_and_ancestors p)) (stderr w) (requests w).

(** [n] copies of a character. *)
Fixpoint repeat_char (c : ascii) (n : nat) : string :=
  match n with
  | 0 => EmptyString
  | S n' => String c (repeat_char c n')
  end.

Definition first_char (s : string) : option ascii := String.get 0 s.

Definition last_char (s : string) : option ascii :=
  String.get (String.length s - 1) s.

(** The three lines of the index for one entry. *)
Definition entry_lines (base_url : string) (output_dir : Path) (entry : string * string)
  : list string :=
  [entry.1 +:+ "," +:+ index_url base_url output_dir (entry.2 +:+ ".txt") +:+ ",all";
   entry.1 +:+ "," +:+ index_url base_url output_dir (entry.2 +:+ "-v4.txt") +:+ ",ipv4";
   entry.1 +:+ "," +:+ index_url base_url output_dir (entry.2 +:+ "-v6.txt") +:+ ",ipv6"].

(** The same lines with the URL as the specification words it. *)
Definition worded_lines (base_url : string) (output_dir : Path) (entry : string * string)
  : list string :=
  [entry.1 +:+ "," +:+ worded_url base_url output_dir (entry.2 +:+ ".txt") +:+ ",all";
   entry.1 +:+ "," +:+ worded_url base_url output_dir (entry.2 +:+ "-v4.txt") +:+ ",ipv4";
   entry.1 +:+ "," +:+ worded_url base_url output_dir (entry.2 +:+ "-v6.txt") +:+ ",ipv6"].

(** The content the last write to [p] in a sequence of writes leaves there. *)
Definition last_write (p : Path) (writes : list (Path * string)) : option string :=
  foldl (λ acc pc, if decide (pc.1 = p) then Some pc.2 else acc) None writes.

(** Every character of a text passes a test. *)
Fixpoint all_chars (P : ascii → bool) (s : string) : bool :=
  match s with
  | EmptyString => true
  | String c s' => P c && all_chars P s'
  end.

(** A text that [JSON_URL_PATTERN] matches as a whole. *)
Definition matches_pattern (u : string) : Prop :=
  ∃ body ds,
    u = url_head +:+ body +:+ url_stem +:+ ds +:+ url_ext
    ∧ all_chars (λ c, negb (Ascii.eqb c dquote)) body = true
    ∧ ds ≠ "" ∧ all_chars is_digit ds = true.

(** A text that holds a match of the pattern somewhere. *)
Definition holds_match (html : string) : Prop :=
  ∃ pre u post, html = pre +:+ u +:+ post ∧ matches_pattern u.

(** ** Inputs of the examples *)

(** The library's answers on the prefixes of the examples of the
    specification; every other value is taken as unparseable. *)
Definition example_ip_network (v : json) : option ip_version :=
  match v with
  | JString "10.0.0.0/8" => Some V4
  | JString "2001:db8::/32" => Some V6
  | _ => None
  end.

(** A rendering of non-string values for the examples, which hold none. *)
Definition example_repr (v : json) : string := "?".

Definition empty_world : world := World ∅ ∅ [] [].

(** The record of the end-to-end scenario of the specification. *)
Definition example_tag : json :=
  JObject [("name", JString "Tag1");
           ("properties",
            JObject [("addressPrefixes",
                      JArray [JString "10.0.0.0/8"; JString "2001:db8::/32";
                              JString "not-an-ip"])])].

Definition example_prefixes : list json :=
  [JString "10.0.0.0/8"; JString "2001:db8::/32"; JString "not-an-ip"].

(** A record with a name and one prefix. *)
Definition named_tag (name : string) : json :=
  JObject [("name", JString name);
           ("properties", JObject [("addressPrefixes", JArray [JString "10.0.0.0/8"])])].

(** A record without a name. *)
Definition nameless_tag : json :=
  JObject [("properties", JObject [("addressPrefixes", JArray [JString "10.0.0.0/8"])])].

Definition out_dir : Path := parse_path "out".

Definition example_body_run : result (list (string * string)) * world :=
  build_edls_body example_ip_network example_repr out_dir None None
    example_tag [] empty_world.

(** A network on which neither download page holds a link. *)
Definition no_link_get (url : string) : option string :=
  if String.eqb url DETAILS_URL then Some "<html>details</html>"
  else if String.eqb url CONFIRM_URL then Some "<html>confirmation</html>"
  else None.

(** A network whose details page holds a link to a document with one
    record. *)
Definition example_json_url : string :=
  "https://download.microsoft.com/download/7/1/ServiceTags_Public_20251117.json".

Definition link_get (url : string) : option string :=
  if String.eqb url DETAILS_URL
  then Some ("<a href=" +:+ String dquote example_json_url +:+ String dquote ">")
  else if String.eqb url example_json_url then Some "document"
  else None.

Definition example_loads (data : string) : option json :=
  if String.eqb data "document" then Some (JObject [("values", JArray [example_tag])])
  else None.

Definition example_args : args :=
  Args "out" None None None (Some "index.csv") "https://x.test".

(** ** The default base URL *)

Definition UPSTREAM_URL_BASE : string :=
  "https://raw.githubusercontent.com/netaryx/palo-alto-azure-servicetag-edl/main".

Definition RAW_HOST : string := "https://raw.githubusercontent.com/".

(** [compute_default_url_base], on a snapshot of [os.environ]. *)
Definition compute_default_url_base (environ : gmap string string) : string :=
  let repo := environ !! "GITHUB_REPOSITORY" in
  let ref := environ !! "GITHUB_REF_NAME" in
  if url_truthy repo && url_truthy ref
  then RAW_HOST +:+ default "" repo +:+ "/" +:+ default "" ref
  else UPSTREAM_URL_BASE.

(** The default of [--url-base] in [parse_args]:
    [DEFAULT_URL_BASE or compute_default_url_base()], where [DEFAULT_URL_BASE]
    is [os.environ.get("EDL_URL_BASE")]; the environment is taken to be the
    same when the module is loaded and when the arguments are parsed. *)
Definition default_url_base (environ : gmap string string) : string :=
  let DEFAULT_URL_BASE := environ !! "EDL_URL_BASE" in
  if url_truthy DEFAULT_URL_BASE then default "" DEFAULT_URL_BASE
  else compute_default_url_base environ.

(** A text without the character [c]. *)
Definition free_of (c : ascii) (s : string) : bool :=
  all_chars (λ a, negb (Ascii.eqb a c)) s.

Definition newline : ascii := ascii_of_nat 10.

(** The paths of the files of a list of returned pairs. *)
Definition entry_paths (output_dir : Path) (entries : list (string * string))
  : list Path :=
  e ← entries;
  [base_path output_dir e.2; ipv4_path output_dir e.2; ipv6_path output_dir e.2].

(** A record named by a number, which is no string. *)
Definition numbered_tag : json :=
  JObject [("name", JInt 5);
           ("properties", JObject [("addressPrefixes", JArray [JString "10.0.0.0/8"])])].

(** The sort key of an entry of the index. *)
Definition sort_key (e : string * string) : string := Str.lower e.1.

(** The end of a match of the pattern: the stem, one or more digits and the
    extension. *)
Definition file_name_part (t : string) : Prop :=
  ∃ ds, t = url_stem +:+ ds +:+ url_ext ∧ ds ≠ "" ∧ all_chars is_digit ds = true.

(** The arguments without the index. *)
Definition without_index (a : args) : args :=
  Args (arg_output_dir a) (arg_include_tags a) (arg_exclude_tags a)
    (arg_save_json a) None (arg_url_base a).

(** A network whose details page holds no link but whose confirmation page
    does. *)
Definition fallback_get (url : string) : option string :=
  if String.eqb url DETAILS_URL then Some "<html>details</html>"
  else if String.eqb url CONFIRM_URL
  then Some ("<a href=" +:+ String dquote example_json_url +:+ String dquote ">")
  else if String.eqb url example_json_url then Some "document"
  else None.

(** A network whose document is no service-tag document. *)
Definition malformed_loads (data : string) : option json :=
  if String.eqb data "document" then Some (JObject [("other", JArray [])]) else None.

Definition saving_args : args :=
  Args "out" None None (Some "raw.json") (Some "index.csv") "https://x.test".

(** A record with the given name and prefixes. *)
Definition tag_with (name : string) (prefixes : list json) : json :=
  JObject [("name", JString name);
           ("properties", JObject [("addressPrefixes", JArray prefixes)])].

(** A record whose prefix list is one string, not a list of strings. *)
Definition string_prefixes_tag : json :=
  JObject [("name", JString "T");
           ("properties", JObject [("addressPrefixes", JString "1.2")])].

(** ** The program on a directory tree

    The store of [world] takes every [open] to succeed and tells files apart
    by the spelling of their paths. The module below embeds the effectful
    functions of the program again, over a POSIX directory tree: a path is
    resolved name by name from the root or from the current directory, [..]
    steps back to the parent, and [open] and [mkdir] fail as the system calls
    do. The tree has no links, permissions or limits on sizes and names. *)

Definition nul : ascii := "000".

Module Posix.

(** A location: the names on the way from the root directory. *)
Definition loc : Type := list string.

Inductive node :=
| File (content : string)
| Dir.

Record state := State {
  tree : gmap loc node;
  cwd : loc;
  stderr : list string;
  requests : list string
}.

Definition Os (A : Type) : Type := state → result A * state.

#[global] Instance Os_ret : MRet Os := λ A a d, (Ok a, d).

#[global] Instance Os_bind : MBind Os := λ A B k m d,
  match m d with
  | (Ok a, d') => k a d'
  | (Raise e, d') => (Raise e, d')
  end.

Definition raise {A} (e : exn) : Os A := λ d, (Raise e, d).

Definition lift {A} (r : result A) : Os A := λ d, (r, d).

Definition eprint (line : string) : Os unit := λ d,
  (Ok (), State (tree d) (cwd d) (stderr d ++ [line]) (requests d)).

(** The root directory is always there. *)
Definition node_at (d : state) (l : loc) : option node :=
  match l with
  | [] => Some Dir
  | _ => tree d !! l
  end.

(** One name further from a directory. *)
Definition step (l : loc) (name : string) : loc :=
  if String.eqb name ".." then removelast l else l ++ [name].

(** Path resolution: every name is looked up in a directory that exists. *)
Fixpoint walk (d : state) (l : loc) (names : list string) : result loc :=
  match names with
  | [] => Ok l
  | name :: rest =>
      match node_at d l with
      | Some Dir => walk d (step l name) rest
      | Some (File _) => Raise NotADirectoryError
      | None => Raise FileNotFoundError
      end
  end.

(** The location a path names. The last name need not exist. A path with a
    NUL character is refused before the system is asked. *)
Definition locate (d : state) (p : Path) : result loc :=
  if existsb (λ name, negb (free_of nul name)) (path_parts p)
  then Raise (ValueError "embedded null byte")
  else
    let start := if Str.truthy (path_root p) then [] else cwd d in
    match node_at d start with
    | Some Dir => walk d start (path_parts p)
    | _ => Raise FileNotFoundError
    end.

(** [p.open("w")], [p.write_text] and [p.write_bytes], with the write and
    the close: the file is created or truncated. *)
Definition write_file (p : Path) (content : string) : Os unit := λ d,
  match locate d p with
  | Raise e => (Raise e, d)
  | Ok l =>
      match node_at d l with
      | Some Dir => (Raise IsADirectoryError, d)
      | _ => (Ok (), State (<[l := File content]> (tree d)) (cwd d) (stderr d) (requests d))
      end
  end.

(** [os.mkdir(p)]. *)
Definition os_mkdir (p : Path) : Os unit := λ d,
  match locate d p with
  | Raise e => (Raise e, d)
  | Ok l =>
      match node_at d l with
      | Some _ => (Raise FileExistsError, d)
      | None => (Ok (), State (<[l := Dir]> (tree d)) (cwd d) (stderr d) (requests d))
      end
  end.

(** [p.is_dir()]. *)
Definition is_dir (d : state) (p : Path) : bool :=
  match locate d p with
  | Ok l => match node_at d l with Some Dir => true | _ => false end
  | Raise _ => false
  end.

Definition is_os_error (e : exn) : bool :=
  match e with
  | FileNotFoundError | NotADirectoryError | IsADirectoryError | FileExistsError => true
  | _ => false
  end.

(** [p.mkdir(parents=False, exist_ok=True)]. *)
Definition mkdir_exist_ok (p : Path) : Os unit := λ d,
  match os_mkdir p d with
  | (Raise FileNotFoundError, _) => (Raise FileNotFoundError, d)
  | (Raise e, _) => if is_os_error e && is_dir d p then (Ok (), d) else (Raise e, d)
  | r => r
  end.

(** [p.mkdir(parents=True, exist_ok=True)] for the path with the given root
    whose names, last first, are [rev_parts]: when a directory on the way is
    missing, the parent is made first and the call repeated without
    [parents]; a path without a name is its own parent. *)
Fixpoint mkdir_up (root : string) (rev_parts : list string) : Os unit := λ d,
  let p := MkPath root (rev rev_parts) in
  match os_mkdir p d with
  | (Raise FileNotFoundError, _) =>
      match rev_parts with
      | [] => (Raise FileNotFoundError, d)
      | _ :: up => (mkdir_up root up ;; mkdir_exist_ok p) d
      end
  | (Raise e, _) => if is_os_error e && is_dir d p then (Ok (), d) else (Raise e, d)
  | r => r
  end.

Definition mkdir_parents (p : Path) : Os unit :=
  mkdir_up (path_root p) (rev (path_parts p)).

Section ListBuilder.

Variable ip_network : json → option ip_version.
Variable py_repr : json → string.

Fixpoint split_loop (todo ipv4 ipv6 : list json) : Os (list json * list json) :=
  match todo with
  | [] => mret (ipv4, ipv6)
  | pfx :: rest =>
      match ip_network pfx with
      | None =>
          eprint ("Skipping unrecognised address prefix: " +:+ fmt py_repr pfx) ;;
          split_loop rest ipv4 ipv6
      | Some V4 => split_loop rest (ipv4 ++ [pfx]) ipv6
      | Some V6 => split_loop rest ipv4 (ipv6 ++ [pfx])
      end
  end.

Definition split_prefixes_by_ip_version (prefixes : json) : Os (list json * list json) :=
  todo ← lift (py_iter prefixes);
  split_loop todo [] [].

Definition write_prefix_file (path : Path) (prefixes : json) : Os nat :=
  prefixes_list ← lift (py_iter prefixes);
  write_file path (render py_repr prefixes_list) ;;
  mret (length prefixes_list).

Section Build.

Variable output_dir : Path.
Variables include_tags exclude_tags : option (list string).

(** One turn of the loop of [build_edls]. *)
Definition build_edls_body (tag : json) (written_entries : list (string * string))
  : Os (list (string * string)) :=
  name ← lift (py_get tag "name" JNull);
  props ← lift (py_get tag "properties" (JObject []));
  prefixes ← lift (py_get props "addressPrefixes" (JArray []));
  if negb (truthy name) || negb (truthy prefixes) then mret written_entries
  else if tags_truthy include_tags && negb (py_in name (default [] include_tags))
  then mret written_entries
  else if tags_truthy exclude_tags && py_in name (default [] exclude_tags)
  then mret written_entries
  else
    name_s ← lift (as_str name);
    let base_name := normalise_filename name_s in
    let base_path := joinpath output_dir (base_name +:+ ".txt") in
    let ipv4_path := joinpath output_dir (base_name +:+ "-v4.txt") in
    let ipv6_path := joinpath output_dir (base_name +:+ "-v6.txt") in
    total_count ← write_prefix_file base_path prefixes;
    '(ipv4_prefixes, ipv6_prefixes) ← split_prefixes_by_ip_version prefixes;
    ipv4_count ← write_prefix_file ipv4_path (JArray ipv4_prefixes);
    ipv6_count ← write_prefix_file ipv6_path (JArray ipv6_prefixes);
    eprint ("Wrote " +:+ as_posix base_path +:+ " (total=" +:+ show_nat total_count
            +:+ ", v4=" +:+ show_nat ipv4_count
            +:+ ", v6=" +:+ show_nat ipv6_count +:+ ")") ;;
    mret (written_entries ++ [(name_s, base_name)]).

Fixpoint build_edls_loop (values : list json) (written_entries : list (string * string))
  : Os (list (string * string)) :=
  match values with
  | [] => mret written_entries
  | tag :: rest =>
      written_entries' ← build_edls_body tag written_entries;
      build_edls_loop rest written_entries'
  end.

Definition build_edls (values : list json) : Os (list (string * string)) :=
  mkdir_parents output_dir ;;
  build_edls_loop values [].

End Build.

End ListBuilder.

Definition write_url_index (entries : list (string * string)) (output_dir : Path)
    (base_url : string) (index_path : Path) : Os unit :=
  let lines := index_lines (url_prefix_of output_dir base_url) entries in
  mkdir_parents (parent index_path) ;;
  write_file index_path (Str.join nl lines +:+ nl) ;;
  eprint ("Wrote URL index to " +:+ as_posix index_path).

Section Driver.

Variable http_get : string → option string.
Variable decode_ignore : string → string.
Variable json_loads : string → option json.
Variable ip_network : json → option ip_version.
Variable py_repr : json → string.

Definition urlopen (url : string) : Os string := λ d,
  let d' := State (tree d) (cwd d) (stderr d) (requests d ++ [url]) in
  match http_get url with
  | Some body => (Ok body, d')
  | None => (Raise (URLError url), d')
  end.

Definition fetch_url (url : string) : Os string :=
  content_bytes ← urlopen url;
  mret (decode_ignore content_bytes).

Definition download_servicetags_json (save_path : option Path) : Os json :=
  html ← fetch_url DETAILS_URL;
  let json_url := find_json_url html in
  json_url ← (if negb (url_truthy json_url)
              then html ← fetch_url CONFIRM_URL; mret (find_json_url html)
              else mret json_url);
  if negb (url_truthy json_url) then raise (RuntimeError not_found_msg)
  else
    let json_url := default "" json_url in
    eprint ("Found ServiceTags JSON URL: " +:+ json_url) ;;
    data_bytes ← urlopen json_url;
    match save_path with
    | Some p =>
        write_file p data_bytes ;;
        eprint ("Saved raw ServiceTags JSON to " +:+ as_posix p)
    | None => mret ()
    end ;;
    match json_loads data_bytes with
    | Some data => mret data
    | None => raise DecodeError
    end.

Definition main (a : args) : Os Z :=
  let output_dir := parse_path (arg_output_dir a) in
  let save_json_path :=
    if url_truthy (arg_save_json a)
    then Some (parse_path (default "" (arg_save_json a))) else None in
  root ← download_servicetags_json save_json_path;
  values ← lift (extract_values root);
  entries ← build_edls ip_network py_repr output_dir
              (arg_include_tags a) (arg_exclude_tags a) values;
  (if url_truthy (arg_url_index a)
   then write_url_index entries output_dir (arg_url_base a)
          (parse_path (default "" (arg_url_index a)))
   else mret ()) ;;
  mret 0%Z.

End Driver.

(** *** Notions used by the statements about the tree *)

(** The content of the file at a location, when there is a file. *)
Definition file_at (d : state) (l : loc) : option string :=
  match node_at d l with
  | Some (File content) => Some content
  | _ => None
  end.

(** [d'] has the requests, the current directory and the directories of [d],
    and a file wherever [d] has one. *)
Definition steady (d d' : state) : Prop :=
  requests d' = requests d ∧ cwd d' = cwd d
  ∧ (∀ l, node_at d' l = Some Dir ↔ node_at d l = Some Dir)
  ∧ (∀ l, is_Some (file_at d l) → is_Some (file_at d' l)).

(** [d'] is [d] with some directories added where there was nothing. *)
Definition dirs_added (d d' : state) : Prop :=
  requests d' = requests d ∧ cwd d' = cwd d ∧ stderr d' = stderr d
  ∧ ∀ l, tree d' !! l = tree d !! l
         ∨ (node_at d l = None ∧ tree d' !! l = Some Dir).

(** The state after the three files of a tag are written in the directory at
    [out], the location of [output_dir]. *)
Definition after_tag (ip_network : json → option ip_version) (py_repr : json → string)
    (output_dir : Path) (out : loc) (base_name : string) (prefixes : list json)
    (d : state) : state :=
  State
    (<[out ++ [base_name +:+ "-v6.txt"] :=
         File (render py_repr (of_version ip_network V6 prefixes))]>
       (<[out ++ [base_name +:+ "-v4.txt"] :=
            File (render py_repr (of_version ip_network V4 prefixes))]>
          (<[out ++ [base_name +:+ ".txt"] := File (render py_repr prefixes)]> (tree d))))
    (cwd d)
    (stderr d ++ skip_lines ip_network py_repr prefixes
       ++ [wrote_line ip_network output_dir base_name prefixes])
    (requests d).

(** The state after [build_edls] has dealt with a record of the documented
    shape whose files can be opened. *)
Definition tag_effect (ip_network : json → option ip_version) (py_repr : json → string)
    (output_dir : Path) (out : loc) (include_tags exclude_tags : option (list string))
    (d : state) (tag : json) : state :=
  match tag_fields tag with
  | Ok (JString s, JArray l) =>
      if truthy (JString s) && truthy (JArray l)
         && passes_filters include_tags exclude_tags (JString s)
      then after_tag ip_network py_repr output_dir out (normalise_filename s) l d
      else d
  | _ => d
  end.

(** The three files of a base can be opened in the directory at [out]: none
    of them is a directory. *)
Definition can_open (d : state) (out : loc) (base_name : string) : Prop :=
  Forall (λ suffix, node_at d (out ++ [base_name +:+ suffix]) ≠ Some Dir)
    [".txt"; "-v4.txt"; "-v6.txt"].

End Posix.

(** A name that is one name of a path: no slash and no NUL character. *)
Definition plain_name (s : string) : bool := free_of "/" s && free_of nul s.

(** The lines of a text: the pieces between its newlines, without the empty
    piece after a last newline. *)
Definition text_lines (content : string) : list string :=
  let pieces := Str.split newline content in
  if String.eqb (List.last pieces "") "" then removelast pieces else pieces.

(** A tree with the current directory [/work] and nothing in it. *)
Definition work_dir : Posix.state :=
  Posix.State {[ ["work"] := Posix.Dir ]} ["work"] [] [].

(** The same with an output directory that an earlier run has filled. *)
Definition used_dir : Posix.state :=
  Posix.State
    (<[ ["work"; "out"; "Old.txt"] := Posix.File "old" ]>
       (<[ ["work"; "out"; "Tag1.txt"] := Posix.File "old" ]>
          (<[ ["work"; "out"] := Posix.Dir ]> {[ ["work"] := Posix.Dir ]})))
    ["work"] [] [].

(** A record whose properties are [null]. *)
Definition null_properties_tag : json :=
  JObject [("name", JString "Tag1"); ("properties", JNull)].

(** * Properties *)

(** ** The document parser *)

Lemma extract_values_first kvs x xs :
  dict_lookup "values" kvs = Some (JArray (x :: xs)) →
  extract_values (JObject kvs) = Ok (x :: xs).
Proof. intros H. unfold extract_values, py_get, py_or. simpl. by rewrite H. Qed.

Lemma extract_values_second kvs xs :
  truthy (default JNull (dict_lookup "values" kvs)) = false →
  dict_lookup "value" kvs = Some (JArray xs) →
  extract_values (JObject kvs) = Ok xs.
Proof.
  intros Hf H. unfold extract_values, py_get, py_or. simpl.
  by rewrite Hf, H.
Qed.

Lemma extract_values_neither kvs :
  (∀ xs, default JNull (dict_lookup "values" kvs) ≠ JArray xs) →
  (∀ xs, default JNull (dict_lookup "value" kvs) ≠ JArray xs) →
  extract_values (JObject kvs) = Raise (ValueError no_values_msg).
Proof.
  intros H1 H2. unfold extract_values, py_get, py_or. simpl.
  remember (default JNull (dict_lookup "values" kvs)) as a eqn:Ea.
  remember (default JNull (dict_lookup "value" kvs)) as b eqn:Eb.
  destruct (truthy a).
  - destruct a; try reflexivity. by destruct (H1 xs).
  - destruct b; try reflexivity. by destruct (H2 xs).
Qed.

(** C2. A document whose ['values'] field is the empty list is rejected as
    malformed, although the lookup under ['values'] yields a list; so is a
    document whose ['values'] field is a non-empty string while its ['value']
    field holds a list. *)
Theorem extract_values_rejects_lists :
  extract_values (JObject [("values", JArray [])])
    = Raise (ValueError no_values_msg)
  ∧ extract_values (JObject [("values", JString "x");
                             ("value", JArray [JObject []])])
    = Raise (ValueError no_values_msg).
Proof. split; reflexivity. Qed.

(** ** Text and paths *)

Lemma append_cons (x : ascii) (a b : string) : String x a +:+ b = String x (a +:+ b).
Proof. reflexivity. Qed.

Lemma append_nil_l (a : string) : "" +:+ a = a.
Proof. reflexivity. Qed.

Lemma append_assoc (a b c : string) : (a +:+ b) +:+ c = a +:+ b +:+ c.
Proof.
  induction a as [|x a IH]; [done|].
  rewrite !append_cons. by f_equal.
Qed.

Lemma append_nil_r (a : string) : a +:+ "" = a.
Proof.
  induction a as [|x a IH]; [done|].
  rewrite append_cons. by f_equal.
Qed.

Lemma length_append (a b : string) :
  String.length (a +:+ b) = String.length a + String.length b.
Proof.
  induction a as [|x a IH]; [done|].
  rewrite append_cons. simpl. by f_equal.
Qed.

Lemma split_nonempty c s : Str.split c s ≠ [].
Proof.
  induction s as [|a s IH]; simpl; [done|].
  destruct (Ascii.eqb a c); [done|]. by destruct (Str.split c s).
Qed.

(** Appending text without the separator extends the last piece. *)
Lemma split_append c b s :
  Str.split c s = [s] →
  ∃ init lst, Str.split c b = init ++ [lst]
              ∧ Str.split c (b +:+ s) = init ++ [lst +:+ s].
Proof.
  intros Hs. induction b as [|a b (init & lst & E1 & E2)].
  - by exists [], "".
  - rewrite append_cons. simpl. rewrite E1, E2. destruct (Ascii.eqb a c).
    + by exists ("" :: init), lst.
    + destruct init as [|i init]; simpl.
      * by exists [], (String a lst).
      * by exists (String a i :: init), lst.
Qed.

(** Two files whose names differ only in their endings have different paths:
    the ending is part of the last component. *)
Lemma joinpath_suffix_ne d b s1 s2 :
  Str.split "/" s1 = [s1] → 2 ≤ String.length s1 →
  Str.split "/" s2 = [s2] → 2 ≤ String.length s2 →
  s1 ≠ s2 → joinpath d (b +:+ s1) ≠ joinpath d (b +:+ s2).
Proof.
  intros H1 L1 H2 L2 Hne Heq.
  destruct (split_append "/" b s1 H1) as (init & lst & Eb & E1).
  destruct (split_append "/" b s2 H2) as (init' & lst' & Eb' & E2).
  rewrite Eb in Eb'. apply app_inj_tail in Eb' as [<- <-].
  assert (∀ s, Str.split "/" (b +:+ s) = init ++ [lst +:+ s] → 2 ≤ String.length s →
            last (path_parts (joinpath d (b +:+ s))) = Some (lst +:+ s)) as Hlast.
  { intros s E L.
    assert (parse_parts (b +:+ s) = filter (λ c, c ≠ "" ∧ c ≠ ".") init ++ [lst +:+ s]) as Hp.
    { unfold parse_parts. rewrite E, filter_app. f_equal.
      rewrite filter_cons_True; [done|].
      split; intros Hx; apply (f_equal String.length) in Hx;
        rewrite length_append in Hx; simpl in Hx; lia. }
    unfold joinpath, parse_path. simpl.
    destruct (Str.truthy _); simpl; rewrite Hp.
    - apply last_snoc.
    - rewrite app_assoc. apply last_snoc. }
  pose proof (Hlast s1 E1 L1) as Q1. pose proof (Hlast s2 E2 L2) as Q2.
  rewrite Heq, Q2 in Q1. injection Q1 as Q1.
  by apply String.app_inj in Q1.
Qed.

(** The three files of a tag are three different paths. *)
Lemma edl_paths_distinct d b :
  base_path d b ≠ ipv4_path d b ∧ base_path d b ≠ ipv6_path d b
  ∧ ipv4_path d b ≠ ipv6_path d b.
Proof.
  unfold base_path, ipv4_path, ipv6_path.
  repeat split; apply joinpath_suffix_ne; (reflexivity || (simpl; lia) || discriminate).
Qed.

(** ** The list builder *)

Ltac py_simpl :=
  unfold mbind, mret, Py_bind, Py_ret, lift, raise, eprint, write_file,
    mkdir_parents; simpl.

Section ListBuilderFacts.

Variable ip_network : json → option ip_version.
Variable py_repr : json → string.

Lemma split_loop_spec todo ipv4 ipv6 w :
  split_loop ip_network py_repr todo ipv4 ipv6 w
  = (Ok (ipv4 ++ of_version ip_network V4 todo, ipv6 ++ of_version ip_network V6 todo),
     World (files w) (dirs w)
       (stderr w ++ skip_lines ip_network py_repr todo) (requests w)).
Proof.
  revert ipv4 ipv6 w. unfold of_version, skip_lines.
  induction todo as [|pfx rest IH]; intros ipv4 ipv6 w; simpl.
  - py_simpl. rewrite !app_nil_r. by destruct w.
  - destruct (ip_network pfx) as [[]|] eqn:E.
    + rewrite IH. rewrite filter_cons_True by done.
      rewrite (filter_cons_False (λ p, ip_network p = Some V6)) by congruence.
      rewrite (filter_cons_False (λ p, ip_network p = None)) by congruence.
      by rewrite <- app_assoc.
    + rewrite IH. rewrite (filter_cons_True (λ p, ip_network p = Some V6)) by done.
      rewrite (filter_cons_False (λ p, ip_network p = Some V4)) by congruence.
      rewrite (filter_cons_False (λ p, ip_network p = None)) by congruence.
      by rewrite <- app_assoc.
    + py_simpl. rewrite IH. simpl.
      rewrite (filter_cons_True (λ p, ip_network p = None)) by done.
      rewrite (filter_cons_False (λ p, ip_network p = Some V4)) by congruence.
      rewrite (filter_cons_False (λ p, ip_network p = Some V6)) by congruence.
      simpl. by rewrite <- app_assoc.
Qed.

Section BuildFacts.

Variable output_dir : Path.
Variables include_tags exclude_tags : option (list string).

Abbreviation body := (build_edls_body ip_network py_repr output_dir include_tags exclude_tags).

(** A record whose fields cannot be read raises before anything is
    written. *)
Lemma build_edls_body_unreadable tag e written w :
  tag_fields tag = Raise e → body tag written w = (Raise e, w).
Proof.
  unfold tag_fields, build_edls_body. py_simpl.
  destruct (py_get tag "name" JNull) as [name|]; simpl; [|congruence].
  destruct (py_get tag "properties" (JObject [])) as [props|]; simpl; [|congruence].
  destruct (py_get props "addressPrefixes" (JArray [])); simpl; congruence.
Qed.

(** One turn of the loop, as a function of the fields of the record. *)
Lemma build_edls_body_unfold tag name prefixes written w :
  tag_fields tag = Ok (name, prefixes) →
  body tag written w =
    if truthy name && truthy prefixes
       && passes_filters include_tags exclude_tags name
    then match as_str name with
         | Raise e => (Raise e, w)
         | Ok s =>
             match py_iter prefixes with
             | Raise e => (Raise e, w)
             | Ok l =>
                 (Ok (written ++ [(s, normalise_filename s)]),
                  after_tag ip_network py_repr output_dir (normalise_filename s) l w)
             end
         end
    else (Ok written, w).
Proof.
  unfold tag_fields, build_edls_body, passes_filters. py_simpl.
  destruct (py_get tag "name" JNull) as [name'|]; simpl; [|done].
  destruct (py_get tag "properties" (JObject [])) as [props|]; simpl; [|done].
  destruct (py_get props "addressPrefixes" (JArray [])) as [prefixes'|]; simpl; [|done].
  intros [= -> ->].
  destruct (truthy name); simpl; [|done].
  destruct (truthy prefixes); simpl; [|done].
  destruct (tags_truthy include_tags && _); simpl; [done|].
  destruct (tags_truthy exclude_tags && _); simpl; [done|].
  destruct (as_str name) as [s|e]; simpl; [|done].
  unfold write_prefix_file, split_prefixes_by_ip_version. py_simpl.
  destruct (py_iter prefixes) as [l|e]; simpl; [|done].
  rewrite split_loop_spec. simpl.
  unfold after_tag, wrote_line, base_path, ipv4_path, ipv6_path. simpl.
  by rewrite <- app_assoc.
Qed.

(** A record that fails the presence test or a name filter leaves the
    world and the entries as they are. *)
Lemma build_edls_body_skip tag name prefixes written w :
  tag_fields tag = Ok (name, prefixes) →
  truthy name && truthy prefixes
    && passes_filters include_tags exclude_tags name = false →
  body tag written w = (Ok written, w).
Proof. intros Hf Ht. by rewrite (build_edls_body_unfold _ _ _ _ _ Hf), Ht. Qed.

(** A record that passes every test gets its three files, its
    diagnostics and its entry. *)
Lemma build_edls_body_write tag s prefixes l written w :
  tag_fields tag = Ok (JString s, prefixes) →
  py_iter prefixes = Ok l →
  truthy (JString s) && truthy prefixes
    && passes_filters include_tags exclude_tags (JString s) = true →
  body tag written w
  = (Ok (written ++ [(s, normalise_filename s)]),
     after_tag ip_network py_repr output_dir (normalise_filename s) l w).
Proof.
  intros Hf Hl Ht. rewrite (build_edls_body_unfold _ _ _ _ _ Hf), Ht. simpl.
  by rewrite Hl.
Qed.

(** Every turn of the loop raises with the world untouched, skips the
    record, or writes it. *)
Lemma build_edls_body_cases tag written w :
  (∃ e, body tag written w = (Raise e, w))
  ∨ body tag written w = (Ok written, w)
  ∨ (∃ s prefixes l,
       tag_fields tag = Ok (JString s, prefixes) ∧ py_iter prefixes = Ok l
       ∧ truthy (JString s) && truthy prefixes
         && passes_filters include_tags exclude_tags (JString s) = true
       ∧ body tag written w
         = (Ok (written ++ [(s, normalise_filename s)]),
            after_tag ip_network py_repr output_dir (normalise_filename s) l w)).
Proof.
  destruct (tag_fields tag) as [[name prefixes]|e] eqn:Hf.
  - rewrite (build_edls_body_unfold _ _ _ _ _ Hf).
    destruct (truthy name && truthy prefixes && _) eqn:Ht; [|by right; left].
    destruct name; simpl; try (left; by eexists).
    destruct (py_iter prefixes) as [l|e] eqn:Hl; [|left; by eexists].
    right; right. by exists s, prefixes, l.
  - left. exists e. by apply build_edls_body_unreadable.
Qed.

(** On a record of the documented shape a turn of the loop never raises. *)
Lemma build_edls_body_ok tag written w :
  record_ok tag = true →
  body tag written w
  = (Ok (written ++ option_list (entry_of include_tags exclude_tags tag)),
     tag_effect ip_network py_repr output_dir include_tags exclude_tags w tag).
Proof.
  unfold record_ok, entry_of, tag_effect.
  destruct (tag_fields tag) as [[name prefixes]|e] eqn:Hf; [|done].
  rewrite (build_edls_body_unfold _ _ _ _ _ Hf).
  destruct name; try done; destruct prefixes; try done; intros _.
  - simpl. by rewrite app_nil_r.
  - simpl. by rewrite app_nil_r.
  - rewrite andb_false_r. simpl. by rewrite app_nil_r.
  - destruct (truthy (JString s) && _ && _); simpl; [done|by rewrite app_nil_r].
Qed.

Lemma build_edls_loop_ok values written w :
  Forall (λ tag, record_ok tag = true) values →
  build_edls_loop ip_network py_repr output_dir include_tags exclude_tags values written w
  = (Ok (written ++ omap (entry_of include_tags exclude_tags) values),
     foldl (tag_effect ip_network py_repr output_dir include_tags exclude_tags) w values).
Proof.
  intros Hok. revert written w.
  induction Hok as [|tag values Htag _ IH]; intros written w; simpl.
  - py_simpl. by rewrite app_nil_r.
  - unfold mbind, Py_bind. rewrite (build_edls_body_ok _ _ _ Htag), IH.
    f_equal. rewrite <- app_assoc. f_equal.
    by destruct (entry_of include_tags exclude_tags tag).
Qed.

(** The entries a run of the loop adds all passed the name filters, and
    each pairs a name with its normalised form. *)
Lemma build_edls_loop_entries values written w entries w' :
  build_edls_loop ip_network py_repr output_dir include_tags exclude_tags values written w
  = (Ok entries, w') →
  ∃ added, entries = written ++ added
    ∧ Forall (λ e, passes_filters include_tags exclude_tags (JString e.1) = true
                   ∧ e.2 = normalise_filename e.1) added.
Proof.
  revert written w. induction values as [|tag values IH]; intros written w; simpl.
  - py_simpl. intros [= <- <-]. exists []. by rewrite app_nil_r.
  - unfold mbind, Py_bind.
    destruct (build_edls_body_cases tag written w)
      as [[e ->]|[->|(s & prefixes & l & _ & _ & Ht & ->)]]; [done| |].
    + apply IH.
    + intros H. apply IH in H as (added & -> & Hall).
      exists ((s, normalise_filename s) :: added). split.
      * by rewrite <- app_assoc.
      * constructor; [|done]. simpl. split; [|done].
        apply andb_prop in Ht as [_ Ht]. exact Ht.
Qed.

Lemma build_edls_spec values w :
  Forall (λ tag, record_ok tag = true) values →
  build_edls ip_network py_repr output_dir include_tags exclude_tags values w
  = (Ok (omap (entry_of include_tags exclude_tags) values),
     foldl (tag_effect ip_network py_repr output_dir include_tags exclude_tags)
       (after_mkdir output_dir w) values).
Proof.
  intros Hok. unfold build_edls. py_simpl.
  by rewrite (build_edls_loop_ok _ _ _ Hok).
Qed.

(** The files of a tag after its turn of the loop. *)
Lemma after_tag_files base l w :
  let w' := after_tag ip_network py_repr output_dir base l w in
  files w' !! base_path output_dir base = Some (render py_repr l)
  ∧ files w' !! ipv4_path output_dir base
    = Some (render py_repr (of_version ip_network V4 l))
  ∧ files w' !! ipv6_path output_dir base
    = Some (render py_repr (of_version ip_network V6 l))
  ∧ ∀ p, p ≠ base_path output_dir base → p ≠ ipv4_path output_dir base →
         p ≠ ipv6_path output_dir base → files w' !! p = files w !! p.
Proof.
  destruct (edl_paths_distinct output_dir base) as (H1 & H2 & H3).
  simpl. repeat split.
  - rewrite lookup_insert_ne, lookup_insert_ne by done. apply lookup_insert_eq.
  - rewrite lookup_insert_ne by done. apply lookup_insert_eq.
  - apply lookup_insert_eq.
  - intros p P1 P2 P3. by rewrite !lookup_insert_ne.
Qed.

(** C1. When a turn of the loop of [build_edls] writes a record, the combined
    file holds every prefix of the record's list, in order; the v4 file holds
    exactly the prefixes that parse as IPv4 networks and the v6 file exactly
    those that parse as IPv6 networks, so a prefix that parses is in exactly
    one of the two, by its version, and a prefix that does not parse is in
    neither. *)
Theorem prefix_classification tag written w entries w' :
  body tag written w = (Ok entries, w') → entries ≠ written →
  ∃ s prefixes l,
    tag_fields tag = Ok (JString s, prefixes) ∧ py_iter prefixes = Ok l
    ∧ files w' !! base_path output_dir (normalise_filename s) = Some (render py_repr l)
    ∧ files w' !! ipv4_path output_dir (normalise_filename s)
      = Some (render py_repr (of_version ip_network V4 l))
    ∧ files w' !! ipv6_path output_dir (normalise_filename s)
      = Some (render py_repr (of_version ip_network V6 l))
    ∧ ∀ pfx, pfx ∈ l →
        match ip_network pfx with
        | Some V4 => pfx ∈ of_version ip_network V4 l ∧ pfx ∉ of_version ip_network V6 l
        | Some V6 => pfx ∈ of_version ip_network V6 l ∧ pfx ∉ of_version ip_network V4 l
        | None => (pfx ∉ of_version ip_network V4 l) ∧ (pfx ∉ of_version ip_network V6 l)
        end.
Proof.
  intros Hb Hne.
  destruct (build_edls_body_cases tag written w)
    as [[e He]|[He|(s & prefixes & l & Hf & Hl & _ & He)]];
    rewrite He in Hb; [done|by injection Hb as <- <-|].
  injection Hb as <- <-. exists s, prefixes, l.
  destruct (after_tag_files (normalise_filename s) l w) as (F1 & F2 & F3 & _).
  repeat split; try done.
  intros pfx Hin. unfold of_version.
  destruct (ip_network pfx) as [[]|] eqn:E; rewrite !list_elem_of_filter;
    split; try done; intros [? _]; congruence.
Qed.

(** C4. A record whose name or prefix list is empty or missing (both read as
    false) is skipped without an error: the world and the entries stay as
    they are. A record with a non-empty name and a non-empty prefix list that
    passes the name filters gets three files at three different paths and one
    entry. Over a document whose records have the documented shape,
    [build_edls] does not raise and returns one pair for each such record, in
    order, and none for the others. *)
Theorem records_skipped_or_written :
  (∀ tag name prefixes written w,
     tag_fields tag = Ok (name, prefixes) →
     truthy name = false ∨ truthy prefixes = false →
     body tag written w = (Ok written, w))
  ∧ (∀ kvs name prefixes,
       tag_fields (JObject kvs) = Ok (name, prefixes) →
       (dict_lookup "name" kvs = None → name = JNull)
       ∧ (dict_lookup "properties" kvs = None → prefixes = JArray [])
       ∧ (∀ props, dict_lookup "properties" kvs = Some (JObject props) →
            dict_lookup "addressPrefixes" props = None → prefixes = JArray []))
  ∧ (∀ tag s l written w,
       tag_fields tag = Ok (JString s, JArray l) → s ≠ "" → l ≠ [] →
       passes_filters include_tags exclude_tags (JString s) = true →
       let base := normalise_filename s in
       body tag written w
       = (Ok (written ++ [(s, base)]),
          after_tag ip_network py_repr output_dir base l w)
       ∧ files (after_tag ip_network py_repr output_dir base l w)
         = <[ipv6_path output_dir base := render py_repr (of_version ip_network V6 l)]>
             (<[ipv4_path output_dir base := render py_repr (of_version ip_network V4 l)]>
                (<[base_path output_dir base := render py_repr l]> (files w)))
       ∧ NoDup [base_path output_dir base; ipv4_path output_dir base;
                ipv6_path output_dir base])
  ∧ (∀ values w,
       Forall (λ tag, record_ok tag = true) values →
       build_edls ip_network py_repr output_dir include_tags exclude_tags values w
       = (Ok (omap (entry_of include_tags exclude_tags) values),
          foldl (tag_effect ip_network py_repr output_dir include_tags exclude_tags)
            (after_mkdir output_dir w) values))
  ∧ (∀ tag name prefixes,
       tag_fields tag = Ok (name, prefixes) →
       (truthy name = false ∨ truthy prefixes = false →
        entry_of include_tags exclude_tags tag = None
        ∧ ∀ w, tag_effect ip_network py_repr output_dir include_tags exclude_tags w tag
               = w)
       ∧ (∀ s l, name = JString s → prefixes = JArray l → s ≠ "" → l ≠ [] →
                 passes_filters include_tags exclude_tags (JString s) = true →
                 entry_of include_tags exclude_tags tag
                 = Some (s, normalise_filename s))).
Proof.
  split; [|split; [|split; [|split]]]; cycle 4.
  { intros tag name prefixes Hf. unfold entry_of, tag_effect. rewrite Hf. split.
    - intros Hfalse. destruct name; try done.
      assert (truthy (JString s) && truthy prefixes = false) as ->.
      { destruct Hfalse as [-> | ->]; [done|by rewrite andb_false_r]. }
      split; [done|]. intros w. destruct prefixes; try done.
      assert (truthy (JString s) && truthy (JArray xs) = false) as ->; [|done].
      destruct Hfalse as [-> | ->]; [done|by rewrite andb_false_r].
    - intros s l -> -> Hs Hl Hp. rewrite Hp. simpl. unfold Str.truthy.
      apply String.eqb_neq in Hs. rewrite Hs. by destruct l. }
  - intros tag name prefixes written w Hf Hfalse.
    apply (build_edls_body_skip _ _ _ _ _ Hf).
    destruct Hfalse as [-> | ->]; [done|]. by rewrite andb_false_r.
  - intros kvs name prefixes H. unfold tag_fields, py_get in H. simpl in H.
    repeat split.
    + intros Hn. rewrite Hn in H. simpl in H.
      destruct (default (JObject []) (dict_lookup "properties" kvs)); simpl in H;
        congruence.
    + intros Hp. rewrite Hp in H. simpl in H. congruence.
    + intros props Hp Ha. rewrite Hp in H. simpl in H. rewrite Ha in H.
      simpl in H. congruence.
  - intros tag s l written w Hf Hs Hl Hp. simpl. split; [|split].
    + apply (build_edls_body_write _ _ _ _ _ _ Hf); [done|].
      rewrite Hp. simpl. unfold Str.truthy.
      apply String.eqb_neq in Hs. rewrite Hs. by destruct l.
    + done.
    + destruct (edl_paths_distinct output_dir (normalise_filename s)) as (H1 & H2 & H3).
      rewrite !NoDup_cons, !not_elem_of_cons.
      repeat split; try done; [apply not_elem_of_nil..|apply NoDup_nil_2].
  - apply build_edls_spec.
Qed.

End BuildFacts.

(** ** The name filters *)

Lemma py_in_elem_of s tags : py_in (JString s) tags = true ↔ s ∈ tags.
Proof.
  simpl. rewrite existsb_exists, list_elem_of_In. split.
  - intros (x & Hx & E). apply String.eqb_eq in E. by subst.
  - intros H. exists s. split; [done|apply String.eqb_refl].
Qed.

Lemma py_in_string name tags : py_in name tags = true → ∃ s, name = JString s ∧ s ∈ tags.
Proof.
  destruct name; try done. intros H. exists s. split; [done|].
  by apply py_in_elem_of.
Qed.

Lemma passes_filters_elem s include_tags exclude_tags :
  passes_filters include_tags exclude_tags (JString s) = true →
  (∀ t ts, include_tags = Some (t :: ts) → s ∈ t :: ts)
  ∧ (∀ tags, exclude_tags = Some tags → s ∉ tags).
Proof.
  unfold passes_filters. intros H. apply andb_prop in H as [Hi He].
  apply negb_true_iff in Hi, He. split.
  - intros t ts ->. apply py_in_elem_of.
    simpl in Hi. by apply negb_false_iff in Hi.
  - intros tags -> Hin. apply py_in_elem_of in Hin.
    destruct tags as [|t ts]; [done|].
    simpl in He, Hin. congruence.
Qed.

(** C3, amended. When a non-empty include set is given, a record whose name
    is not a member is not written; when an exclude set is given, a record
    whose name is a member is not written, whatever the include set. Every
    pair [build_edls] returns names a member of the non-empty include set and
    no member of the exclude set; with include [A; B] and exclude [B], only
    records named [A] are returned. *)
Theorem name_filters_applied output_dir :
  (∀ include_tags exclude_tags tag name prefixes written w t ts,
     tag_fields tag = Ok (name, prefixes) →
     include_tags = Some (t :: ts) → py_in name (t :: ts) = false →
     build_edls_body ip_network py_repr output_dir include_tags exclude_tags
       tag written w = (Ok written, w))
  ∧ (∀ include_tags exclude_tags tag name prefixes written w tags,
       tag_fields tag = Ok (name, prefixes) →
       exclude_tags = Some tags → py_in name tags = true →
       build_edls_body ip_network py_repr output_dir include_tags exclude_tags
         tag written w = (Ok written, w))
  ∧ (∀ include_tags exclude_tags values w entries w',
       build_edls ip_network py_repr output_dir include_tags exclude_tags values w
       = (Ok entries, w') →
       Forall (λ e, (∀ t ts, include_tags = Some (t :: ts) → e.1 ∈ t :: ts)
                    ∧ (∀ tags, exclude_tags = Some tags → e.1 ∉ tags)) entries)
  ∧ (∀ values w entries w',
       build_edls ip_network py_repr output_dir (Some ["A"; "B"]) (Some ["B"]) values w
       = (Ok entries, w') →
       Forall (λ e, e.1 = "A") entries).
Proof.
  assert (∀ include_tags exclude_tags values w entries w',
       build_edls ip_network py_repr output_dir include_tags exclude_tags values w
       = (Ok entries, w') →
       Forall (λ e, (∀ t ts, include_tags = Some (t :: ts) → e.1 ∈ t :: ts)
                    ∧ (∀ tags, exclude_tags = Some tags → e.1 ∉ tags)) entries) as Hall.
  { intros include_tags exclude_tags values w entries w'. unfold build_edls. py_simpl.
    intros H. apply build_edls_loop_entries in H as (added & -> & Hall).
    simpl. eapply Forall_impl; [exact Hall|].
    intros e [Hp _]. by apply passes_filters_elem. }
  split; [|split; [|split]]; [| |exact Hall|].
  - intros include_tags exclude_tags tag name prefixes written w t ts Hf -> Hin.
    eapply build_edls_body_skip; [exact Hf|].
    unfold passes_filters. simpl tags_truthy. simpl default.
    rewrite Hin. simpl. by rewrite andb_false_r.
  - intros include_tags exclude_tags tag name prefixes written w tags Hf -> Hin.
    eapply build_edls_body_skip; [exact Hf|].
    unfold passes_filters. simpl default. rewrite Hin.
    destruct tags as [|t ts]; [by destruct name|].
    simpl. by rewrite !andb_false_r.
  - intros values w entries w' H. apply Hall in H.
    eapply Forall_impl; [exact H|]. intros e [Hi He].
    specialize (Hi _ _ eq_refl). specialize (He _ eq_refl).
    apply elem_of_cons in Hi as [Hi|Hi]; [done|].
    apply elem_of_cons in Hi as [Hi|Hi]; [|by apply elem_of_nil in Hi].
    exfalso. apply He. rewrite Hi. by apply elem_of_cons; left.
Qed.

(** C9. An include set that is present but empty is not applied: every name
    passes the include test, and each turn of the loop, and so the whole of
    [build_edls], does what it does when no include set is given. *)
Theorem empty_include_not_applied output_dir exclude_tags :
  (∀ name, passes_filters (Some []) None name = true)
  ∧ (∀ tag written w,
       build_edls_body ip_network py_repr output_dir (Some []) exclude_tags tag written w
       = build_edls_body ip_network py_repr output_dir None exclude_tags tag written w)
  ∧ (∀ values w,
       build_edls ip_network py_repr output_dir (Some []) exclude_tags values w
       = build_edls ip_network py_repr output_dir None exclude_tags values w).
Proof.
  split; [done|]. split; [reflexivity|].
  intros values w. unfold build_edls. py_simpl.
  generalize (World (files w) (dirs w ∪ list_to_set (self_and_ancestors output_dir))
                (stderr w) (requests w)).
  generalize (@nil (string * string)).
  induction values as [|tag values IH]; intros written w0; [done|].
  simpl. unfold mbind, Py_bind.
  change (build_edls_body ip_network py_repr output_dir (Some []) exclude_tags tag written w0)
    with (build_edls_body ip_network py_repr output_dir None exclude_tags tag written w0).
  destruct (build_edls_body _ _ _ None _ _ _ _) as [[entries|e] w1]; [apply IH|done].
Qed.

(** ** File names *)

Lemma get_map f s i : String.get i (Str.map f s) = f <$> String.get i s.
Proof.
  revert i. induction s as [|a s IH]; intros [|i]; simpl; done.
Qed.

Lemma length_map f s : String.length (Str.map f s) = String.length s.
Proof. induction s as [|a s IH]; simpl; [done|by f_equal]. Qed.

Lemma space_to_underscore_other c : c ≠ " "%char → space_to_underscore c = c.
Proof.
  intros H. unfold space_to_underscore.
  destruct (Ascii.eqb_spec c " "); [done|done].
Qed.

(** Two names that differ only by a space against an underscore share their
    base. *)
Lemma normalise_filename_collision : normalise_filename "a b" = normalise_filename "a_b".
Proof. reflexivity. Qed.

(** C6. [normalise_filename] keeps the length of the name and replaces each
    space, and nothing else, by an underscore; the three files a turn of the
    loop writes are named by that base followed by [.txt], [-v4.txt] and
    [-v6.txt]; equal names give equal bases, and two names that differ at a
    position where neither has a space give different bases. *)
Theorem filename_derivation output_dir include_tags exclude_tags :
  (∀ name,
     String.length (normalise_filename name) = String.length name
     ∧ ∀ i, String.get i (normalise_filename name)
            = space_to_underscore <$> String.get i name)
  ∧ normalise_filename "East US" = "East_US"
  ∧ (∀ tag s prefixes l written w,
       tag_fields tag = Ok (JString s, prefixes) → py_iter prefixes = Ok l →
       truthy (JString s) && truthy prefixes
         && passes_filters include_tags exclude_tags (JString s) = true →
       let base := normalise_filename s in
       files (build_edls_body ip_network py_repr output_dir include_tags exclude_tags
                tag written w).2
       = <[joinpath output_dir (base +:+ "-v6.txt") :=
             render py_repr (of_version ip_network V6 l)]>
           (<[joinpath output_dir (base +:+ "-v4.txt") :=
                render py_repr (of_version ip_network V4 l)]>
              (<[joinpath output_dir (base +:+ ".txt") := render py_repr l]> (files w))))
  ∧ (∀ n1 n2, n1 = n2 → normalise_filename n1 = normalise_filename n2)
  ∧ (∀ n1 n2 i,
       String.get i n1 ≠ String.get i n2 →
       String.get i n1 ≠ Some " "%char → String.get i n2 ≠ Some " "%char →
       normalise_filename n1 ≠ normalise_filename n2).
Proof.
  split; [|split; [|split; [|split]]].
  - intros name. split; [apply length_map|]. intros i. apply get_map.
  - reflexivity.
  - intros tag s prefixes l written w Hf Hl Ht. simpl.
    by rewrite (build_edls_body_write _ _ _ _ _ _ _ _ _ Hf Hl Ht).
  - by intros n1 n2 ->.
  - intros n1 n2 i Hne H1 H2 Heq.
    apply (f_equal (String.get i)) in Heq.
    unfold normalise_filename, Str.replace_char in Heq. rewrite !get_map in Heq.
    destruct (String.get i n1) as [a|], (String.get i n2) as [b|]; simpl in Heq;
      try done.
    injection Heq as Heq.
    change (space_to_underscore a = space_to_underscore b) in Heq.
    rewrite !space_to_underscore_other in Heq by congruence. congruence.
Qed.

End ListBuilderFacts.

(** ** The index writer *)

Lemma string_leb_refl s : String.leb s s = true.
Proof.
  unfold String.leb. induction s as [|a s IH]; simpl; [done|].
  unfold Ascii.compare. by rewrite N.compare_refl.
Qed.

Lemma string_leb_trans a b c :
  String.leb a b = true → String.leb b c = true → String.leb a c = true.
Proof.
  unfold String.leb. revert b c.
  induction a as [|x a IH]; intros [|y b] [|z c]; simpl; try done.
  unfold Ascii.compare.
  destruct (N.compare_spec (N_of_ascii x) (N_of_ascii y)) as [Exy|Lxy|Gxy];
    destruct (N.compare_spec (N_of_ascii y) (N_of_ascii z)) as [Eyz|Lyz|Gyz];
    try done.
  - rewrite Exy, Eyz, N.compare_refl. apply IH.
  - intros _ _. rewrite Exy. by apply N.compare_lt_iff in Lyz as ->.
  - intros _ _. rewrite <- Eyz. by apply N.compare_lt_iff in Lxy as ->.
  - intros _ _.
    assert (N_of_ascii x < N_of_ascii z)%N as H by lia.
    by apply N.compare_lt_iff in H as ->.
Qed.

Lemma key_le_total x y : key_le x y = false → key_le y x = true.
Proof.
  unfold key_le. intros H.
  destruct (String.leb_total (Str.lower x.1) (Str.lower y.1)); congruence.
Qed.

Lemma insert_entry_perm x l : Permutation (insert_entry x l) (x :: l).
Proof.
  induction l as [|y l IH]; simpl; [done|].
  destruct (key_le x y); [done|].
  rewrite IH. apply perm_swap.
Qed.

Lemma sorted_entries_perm l : Permutation (sorted_entries l) l.
Proof.
  induction l as [|x l IH]; simpl; [done|].
  rewrite insert_entry_perm. by constructor.
Qed.

Lemma insert_entry_sorted x l :
  StronglySorted (λ a b, key_le a b = true) l →
  StronglySorted (λ a b, key_le a b = true) (insert_entry x l).
Proof.
  induction 1 as [|y l Hl IH Hy]; simpl.
  - repeat constructor.
  - destruct (key_le x y) eqn:E.
    + constructor; [by constructor|]. constructor; [done|].
      eapply Forall_impl; [exact Hy|]. intros z Hz. unfold key_le in *.
      by eapply string_leb_trans.
    + constructor; [done|].
      rewrite (Forall_forall _ (insert_entry x l)). intros z Hz.
      rewrite insert_entry_perm in Hz. apply elem_of_cons in Hz as [->|Hz].
      * by apply key_le_total.
      * rewrite Forall_forall in Hy. by apply Hy.
Qed.

Lemma sorted_entries_sorted l :
  StronglySorted (λ a b, key_le a b = true) (sorted_entries l).
Proof.
  induction l as [|x l IH]; simpl; [constructor|]. by apply insert_entry_sorted.
Qed.

Lemma insert_entry_with_key k x l :
  with_key k (insert_entry x l) = with_key k (x :: l).
Proof.
  unfold with_key. induction l as [|y l IH]; simpl; [done|].
  destruct (key_le x y) eqn:E; [done|].
  rewrite filter_cons, IH, !filter_cons.
  destruct (decide (Str.lower y.1 = k)) as [Hy|Hy]; [|done].
  destruct (decide (Str.lower x.1 = k)) as [Hx|Hx]; [|done].
  unfold key_le in E. rewrite Hx, Hy, string_leb_refl in E. done.
Qed.

(** [sorted] keeps the order of entries whose keys are equal. *)
Lemma sorted_entries_stable k l : with_key k (sorted_entries l) = with_key k l.
Proof.
  induction l as [|x l IH]; simpl; [done|].
  rewrite insert_entry_with_key. unfold with_key in *.
  by rewrite !filter_cons, IH.
Qed.

Lemma lstrip_spec c s :
  ∃ n, s = repeat_char c n +:+ Str.lstrip c s ∧ first_char (Str.lstrip c s) ≠ Some c.
Proof.
  induction s as [|a s (n & E & H)]; simpl.
  - by exists 0.
  - destruct (Ascii.eqb_spec a c) as [->|Hne].
    + exists (S n). simpl. rewrite append_cons. by rewrite <- E.
    + exists 0. split; [done|]. unfold first_char. simpl. congruence.
Qed.

Lemma rstrip_spec c s :
  ∃ n, s = Str.rstrip c s +:+ repeat_char c n ∧ last_char (Str.rstrip c s) ≠ Some c.
Proof.
  induction s as [|a s (n & E & H)]; simpl.
  - by exists 0.
  - destruct (Ascii.eqb_spec a c) as [->|Hne]; simpl.
    + destruct (String.eqb_spec (Str.rstrip c s) "") as [Hr|Hr].
      * exists (S n). rewrite Hr in E. rewrite append_nil_l in *. simpl.
        split; [by f_equal|done].
      * exists n. rewrite append_cons. split; [by f_equal|].
        unfold last_char in *. simpl. rewrite Nat.sub_0_r.
        destruct (Str.rstrip c s) as [|b r]; [done|].
        simpl in *. by rewrite Nat.sub_0_r in H.
    + exists n. rewrite append_cons. split; [by f_equal|].
      unfold last_char in *. simpl. rewrite Nat.sub_0_r.
      destruct (Str.rstrip c s) as [|b r]; simpl in *; [congruence|].
      by rewrite Nat.sub_0_r in H.
Qed.

Lemma first_char_rstrip c s :
  first_char (Str.rstrip c s) = Some c → first_char s = Some c.
Proof.
  destruct s as [|a s]; [done|]. simpl.
  by destruct (Ascii.eqb a c && String.eqb (Str.rstrip c s) "").
Qed.

(** [s.strip(c)] is [s] without the copies of [c] at its two ends. *)
Lemma strip_spec c s :
  ∃ n m, s = repeat_char c n +:+ Str.strip c s +:+ repeat_char c m
         ∧ first_char (Str.strip c s) ≠ Some c
         ∧ last_char (Str.strip c s) ≠ Some c.
Proof.
  unfold Str.strip.
  destruct (lstrip_spec c s) as (n & E1 & H1).
  destruct (rstrip_spec c (Str.lstrip c s)) as (m & E2 & H2).
  exists n, m. split; [by rewrite <- E2|]. split; [|done].
  intros H. by apply first_char_rstrip in H.
Qed.

Lemma index_line_url base_url output_dir name base_name label suffix :
  index_line (url_prefix_of output_dir base_url) name base_name (label, suffix)
  = name +:+ "," +:+ index_url base_url output_dir (base_name +:+ suffix +:+ ".txt")
      +:+ "," +:+ label.
Proof.
  unfold index_line, url_prefix_of, index_url, worded_url. simpl.
  destruct (Str.truthy _); [|done].
  by rewrite !append_assoc.
Qed.

Lemma index_lines_entries base_url output_dir entries :
  index_lines (url_prefix_of output_dir base_url) entries
  = sorted_entries entries ≫= entry_lines base_url output_dir.
Proof.
  unfold index_lines. induction (sorted_entries entries) as [|e l IH]; [done|].
  rewrite !bind_cons, IH. f_equal.
  unfold variants, entry_lines. simpl. by rewrite !index_line_url.
Qed.

(** C5, amended. The index file holds, for each entry in the order of a
    stable sort by lower-cased tag name, the three lines [name,url,label] of
    the variants all, ipv4 and ipv6 in that order, joined and ended by a
    newline. When the output directory stripped of its leading and trailing
    slashes is not empty, the URL is the base URL without its trailing
    slashes, a slash, the stripped directory, a slash and the file name; when
    it is empty, the URL is the base URL without its trailing slashes, a
    slash and the file name. *)
Theorem index_written entries output_dir base_url index_path w :
  let run := write_url_index entries output_dir base_url index_path w in
  run.1 = Ok ()
  ∧ files run.2 !! index_path
    = Some (Str.join nl (sorted_entries entries ≫= entry_lines base_url output_dir)
            +:+ nl)
  ∧ (∀ filename,
       index_url base_url output_dir filename
       = if decide (Str.strip "/" (as_posix output_dir) = "")
         then Str.rstrip "/" base_url +:+ "/" +:+ filename
         else Str.rstrip "/" base_url +:+ "/" +:+ Str.strip "/" (as_posix output_dir)
              +:+ "/" +:+ filename)
  ∧ length (sorted_entries entries ≫= entry_lines base_url output_dir)
    = 3 * length entries
  ∧ Permutation (sorted_entries entries) entries
  ∧ StronglySorted (λ a b, String.leb (Str.lower a.1) (Str.lower b.1) = true)
      (sorted_entries entries)
  ∧ (∀ k, with_key k (sorted_entries entries) = with_key k entries).
Proof.
  simpl. repeat split.
  - unfold write_url_index. py_simpl. rewrite lookup_insert_eq.
    by rewrite index_lines_entries.
  - intros filename. unfold index_url, worded_url, Str.truthy.
    destruct (String.eqb_spec (Str.strip "/" (as_posix output_dir)) "") as [E|E];
      simpl; by case_decide.
  - rewrite <- (Permutation_length (sorted_entries_perm entries)).
    induction (sorted_entries entries) as [|e l IH]; [done|].
    rewrite bind_cons, length_app, IH. simpl. lia.
  - apply sorted_entries_perm.
  - apply sorted_entries_sorted.
  - intros k. apply sorted_entries_stable.
Qed.

(** C10. With no entries the index file is still written, and it holds one
    newline character and nothing else. *)
Theorem empty_index_is_newline output_dir base_url index_path w :
  let run := write_url_index [] output_dir base_url index_path w in
  run.1 = Ok ()
  ∧ files run.2 !! index_path = Some nl
  ∧ nl = String (ascii_of_nat 10) EmptyString.
Proof.
  simpl. repeat split. unfold write_url_index. py_simpl. apply lookup_insert_eq.
Qed.

(** ** Runs that never read a file back *)

Lemma put_all_snoc writes pc fs :
  put_all (writes ++ [pc]) fs = <[pc.1 := pc.2]> (put_all writes fs).
Proof. unfold put_all. by rewrite foldl_app. Qed.

Lemma last_write_snoc p writes pc :
  last_write p (writes ++ [pc])
  = if decide (pc.1 = p) then Some pc.2 else last_write p writes.
Proof. unfold last_write. by rewrite foldl_app. Qed.

Lemma put_all_lookup writes fs p :
  put_all writes fs !! p = from_option Some (fs !! p) (last_write p writes).
Proof.
  induction writes as [|pc writes IH] using rev_ind; [done|].
  rewrite put_all_snoc, last_write_snoc.
  case_decide as E.
  - rewrite <- E. by rewrite lookup_insert_eq.
  - by rewrite lookup_insert_ne.
Qed.

Lemma put_all_twice writes fs : put_all writes (put_all writes fs) = put_all writes fs.
Proof.
  apply map_eq. intros p. rewrite !put_all_lookup.
  by destruct (last_write p writes).
Qed.

Lemma blind_ret {A} (a : A) : blind (mret a).
Proof. by exists (Ok a), []. Qed.

Lemma blind_raise {A} e : blind (@raise A e).
Proof. by exists (Raise e), []. Qed.

Lemma blind_lift {A} (r : result A) : blind (lift r).
Proof. by exists r, []. Qed.

Lemma blind_eprint line : blind (eprint line).
Proof. by exists (Ok ()), []. Qed.

Lemma blind_mkdir_parents p : blind (mkdir_parents p).
Proof. by exists (Ok ()), []. Qed.

Lemma blind_write_file p content : blind (write_file p content).
Proof. by exists (Ok ()), [(p, content)]. Qed.

Lemma blind_bind {A B} (m : Py A) (k : A → Py B) :
  blind m → (∀ a, blind (k a)) → blind (m ≫= k).
Proof.
  intros (r & ws & Hm) Hk. destruct r as [a|e].
  - destruct (Hk a) as (r' & ws' & Hka). exists r', (ws ++ ws'). intros w.
    unfold mbind, Py_bind. destruct (Hm w) as [H1 H2].
    destruct (m w) as [r1 w1]. simpl in *. subst r1.
    destruct (Hka w1) as [H3 H4]. split; [done|].
    rewrite H4, H2. unfold put_all. by rewrite foldl_app.
  - exists (Raise e), ws. intros w.
    unfold mbind, Py_bind. destruct (Hm w) as [H1 H2].
    destruct (m w) as [r1 w1]. simpl in *. by subst r1.
Qed.

(** Running a blind computation again leaves every file as the first run
    left it, and any other start gives the written files the same content. *)
Lemma blind_rerun {A} (m : Py A) :
  blind m →
  ∀ w, (m (m w).2).1 = (m w).1 ∧ files (m (m w).2).2 = files (m w).2
       ∧ ∀ w0 p, files (m w0).2 !! p = files (m w).2 !! p
                 ∨ (files (m w0).2 !! p = files w0 !! p
                    ∧ files (m w).2 !! p = files w !! p).
Proof.
  intros (r & ws & Hm) w.
  destruct (Hm w) as [H1 H2]. destruct (Hm (m w).2) as [H3 H4].
  split; [congruence|]. split.
  - rewrite H4, H2. apply put_all_twice.
  - intros w0 p. destruct (Hm w0) as [_ H5].
    rewrite H5, H2, !put_all_lookup.
    destruct (last_write p ws); simpl; [by left|by right].
Qed.

Ltac blind_step :=
  first
    [ apply blind_ret | apply blind_raise | apply blind_lift | apply blind_eprint
    | apply blind_mkdir_parents | apply blind_write_file
    | apply blind_bind; [|intros ?] ].

Lemma blind_split_loop ip_network py_repr todo ipv4 ipv6 :
  blind (split_loop ip_network py_repr todo ipv4 ipv6).
Proof.
  revert ipv4 ipv6. induction todo as [|pfx rest IH]; intros ipv4 ipv6; simpl.
  - apply blind_ret.
  - destruct (ip_network pfx) as [[]|]; [apply IH|apply IH|].
    apply blind_bind; [apply blind_eprint|intros _; apply IH].
Qed.

Lemma blind_write_prefix_file py_repr path prefixes :
  blind (write_prefix_file py_repr path prefixes).
Proof. unfold write_prefix_file. repeat blind_step. Qed.

Lemma blind_build_edls_body ip_network py_repr output_dir include_tags exclude_tags
    tag written :
  blind (build_edls_body ip_network py_repr output_dir include_tags exclude_tags
           tag written).
Proof.
  unfold build_edls_body.
  do 3 (apply blind_bind; [apply blind_lift|intros ?]).
  repeat (match goal with |- blind (if ?b then _ else _) => destruct b end;
          [apply blind_ret|]).
  apply blind_bind; [apply blind_lift|intros ?].
  apply blind_bind; [apply blind_write_prefix_file|intros ?].
  apply blind_bind.
  { unfold split_prefixes_by_ip_version.
    apply blind_bind; [apply blind_lift|intros ?]. apply blind_split_loop. }
  intros [ipv4 ipv6].
  do 2 (apply blind_bind; [apply blind_write_prefix_file|intros ?]).
  repeat blind_step.
Qed.

Lemma blind_build_edls_loop ip_network py_repr output_dir include_tags exclude_tags
    values written :
  blind (build_edls_loop ip_network py_repr output_dir include_tags exclude_tags
           values written).
Proof.
  revert written. induction values as [|tag values IH]; intros written; simpl.
  - apply blind_ret.
  - apply blind_bind; [apply blind_build_edls_body|intros ?; apply IH].
Qed.

Lemma blind_build_edls ip_network py_repr output_dir include_tags exclude_tags values :
  blind (build_edls ip_network py_repr output_dir include_tags exclude_tags values).
Proof.
  unfold build_edls.
  apply blind_bind; [apply blind_mkdir_parents|intros _; apply blind_build_edls_loop].
Qed.

Lemma blind_write_url_index entries output_dir base_url index_path :
  blind (write_url_index entries output_dir base_url index_path).
Proof. unfold write_url_index. repeat blind_step. Qed.

(** ** The source locator and the driver *)

#[local] Arguments match_tail : simpl never.
#[local] Arguments match_at : simpl never.

Lemma strip_prefix_spec p s r : Str.strip_prefix p s = Some r ↔ s = p +:+ r.
Proof.
  revert s. induction p as [|a p IH]; intros s; simpl.
  - split; [by intros [= ->]|by intros ->].
  - destruct s as [|b s]; [done|].
    change (String a p +:+ r) with (String a (p +:+ r)).
    destruct (Ascii.eqb_spec a b) as [->|Hne].
    + rewrite IH. split; [by intros ->|by intros [= ->]].
    + split; [done|]. intros [= E _]. by destruct Hne.
Qed.

Lemma strip_prefix_append p r : Str.strip_prefix p (p +:+ r) = Some r.
Proof. by apply strip_prefix_spec. Qed.

Lemma take_digits_spec s ds rest :
  take_digits s = (ds, rest) → s = ds +:+ rest ∧ all_chars is_digit ds = true.
Proof.
  revert ds rest. induction s as [|c s IH]; intros ds rest; simpl.
  - by intros [= <- <-].
  - destruct (is_digit c) eqn:Hc.
    + destruct (take_digits s) as [ds' rest'] eqn:E. intros [= <- <-].
      destruct (IH _ _ eq_refl) as [-> Hd]. simpl. by rewrite Hc, Hd.
    + by intros [= <- <-].
Qed.

(** A run of digits followed by a character that is no digit is taken
    whole. *)
Lemma take_digits_append ds c rest :
  all_chars is_digit ds = true → is_digit c = false →
  take_digits (ds +:+ String c rest) = (ds, String c rest).
Proof.
  intros Hd Hc. induction ds as [|d ds IH].
  - simpl. by rewrite Hc.
  - simpl in Hd. apply andb_prop in Hd as [H1 H2].
    rewrite append_cons. simpl. by rewrite H1, (IH H2).
Qed.

Lemma match_tail_sound s m :
  match_tail s = Some m →
  ∃ ds post, m = url_stem +:+ ds +:+ url_ext ∧ s = m +:+ post
             ∧ ds ≠ "" ∧ all_chars is_digit ds = true.
Proof.
  unfold match_tail. destruct (Str.strip_prefix url_stem s) as [s1|] eqn:E1; [|done].
  cbn [mbind option_bind]. destruct (take_digits s1) as [ds s2] eqn:E2.
  destruct (Str.truthy ds) eqn:Ht; [|done].
  destruct (Str.strip_prefix url_ext s2) as [post|] eqn:E3; [|done].
  cbn [mbind option_bind]. intros [= <-].
  apply strip_prefix_spec in E1, E3. apply take_digits_spec in E2 as [E2 Hd].
  exists ds, post. subst. repeat split; try done.
  - by rewrite !append_assoc.
  - intros ->. done.
Qed.

Lemma match_tail_complete ds post :
  ds ≠ "" → all_chars is_digit ds = true →
  match_tail (url_stem +:+ ds +:+ url_ext +:+ post) = Some (url_stem +:+ ds +:+ url_ext).
Proof.
  intros Hne Hd. unfold match_tail. rewrite strip_prefix_append.
  cbn [mbind option_bind].
  change (url_ext +:+ post) with (String "." ("json" +:+ post)).
  rewrite take_digits_append by done.
  change (String "." ("json" +:+ post)) with (url_ext +:+ post).
  rewrite strip_prefix_append. cbn [mbind option_bind].
  by destruct ds.
Qed.

Lemma match_body_sound s m :
  match_body s = Some m →
  ∃ body t post,
    m = body +:+ t ∧ s = m +:+ post
    ∧ all_chars (λ c, negb (Ascii.eqb c dquote)) body = true
    ∧ ∃ ds, t = url_stem +:+ ds +:+ url_ext ∧ ds ≠ "" ∧ all_chars is_digit ds = true.
Proof.
  assert (∀ s m, match_tail s = Some m →
            ∃ body t post,
              m = body +:+ t ∧ s = m +:+ post
              ∧ all_chars (λ c, negb (Ascii.eqb c dquote)) body = true
              ∧ ∃ ds, t = url_stem +:+ ds +:+ url_ext ∧ ds ≠ ""
                      ∧ all_chars is_digit ds = true) as Htail.
  { intros s0 m0 H. apply match_tail_sound in H as (ds & post & -> & -> & Hne & Hd).
    exists "", (url_stem +:+ ds +:+ url_ext), post. repeat split; try done.
    by exists ds. }
  revert m. induction s as [|c s IH]; intros m; simpl.
  - apply Htail.
  - destruct (Ascii.eqb c dquote) eqn:Hq; [apply Htail|].
    destruct (match_body s) as [m'|]; [|apply Htail].
    intros [= <-]. destruct (IH m' eq_refl) as (body & t & post & -> & -> & Hb & Ht).
    exists (String c body), t, post. repeat split; try done.
    simpl. by rewrite Hq, Hb.
Qed.

Lemma match_body_of_tail s : is_Some (match_tail s) → is_Some (match_body s).
Proof.
  intros H. destruct s as [|c s]; simpl; [done|].
  destruct (Ascii.eqb c dquote); [done|]. by destruct (match_body s).
Qed.

Lemma match_body_complete body t :
  all_chars (λ c, negb (Ascii.eqb c dquote)) body = true →
  is_Some (match_tail t) → is_Some (match_body (body +:+ t)).
Proof.
  intros Hb Ht. induction body as [|c body IH].
  - by apply match_body_of_tail.
  - simpl in Hb. apply andb_prop in Hb as [Hc Hb]. apply negb_true_iff in Hc.
    rewrite append_cons. simpl. rewrite Hc.
    by destruct (IH Hb) as [m ->].
Qed.

Lemma match_at_sound s m :
  match_at s = Some m → matches_pattern m ∧ ∃ post, s = m +:+ post.
Proof.
  unfold match_at. destruct (Str.strip_prefix url_head s) as [rest|] eqn:E; [|done].
  simpl. destruct (match_body rest) as [b|] eqn:Eb; [|done].
  intros [= <-]. apply strip_prefix_spec in E.
  apply match_body_sound in Eb as (body & t & post & -> & -> & Hb & ds & -> & Hne & Hd).
  split.
  - by exists body, ds.
  - exists post. by rewrite E, !append_assoc.
Qed.

Lemma match_at_complete u post : matches_pattern u → is_Some (match_at (u +:+ post)).
Proof.
  intros (body & ds & -> & Hb & Hne & Hd). unfold match_at.
  rewrite !append_assoc, strip_prefix_append. simpl.
  destruct (match_body_complete body (url_stem +:+ ds +:+ url_ext +:+ post) Hb)
    as [m Hm]; [by rewrite match_tail_complete|].
  by rewrite Hm.
Qed.

Lemma match_at_head s m : match_at s = Some m → ∃ rest, m = url_head +:+ rest.
Proof.
  intros H. apply match_at_sound in H as [(body & ds & -> & _) _]. by eexists.
Qed.

(** A URL the locator finds is a piece of the page that the pattern
    matches. *)
Lemma find_json_url_sound html u :
  find_json_url html = Some u →
  matches_pattern u ∧ ∃ pre post, html = pre +:+ u +:+ post.
Proof.
  unfold find_json_url. induction html as [|c html IH]; simpl; [done|].
  destruct (match_at (String c html)) as [m|] eqn:E.
  - intros [= <-]. apply match_at_sound in E as [Hm [post E]].
    split; [done|]. by exists "", post.
  - intros H. destruct (IH H) as [Hm (pre & post & ->)].
    split; [done|]. by exists (String c pre), post.
Qed.

Lemma re_search_none s : re_search s = None → match_at s = None.
Proof. destruct s; [done|]. simpl. by destruct (match_at _). Qed.

(** The locator finds nothing only on a page that holds no match. *)
Lemma find_json_url_complete html :
  find_json_url html = None → ¬ holds_match html.
Proof.
  unfold find_json_url. intros Hnone (pre & u & post & -> & Hm).
  induction pre as [|c pre IH].
  - rewrite append_nil_l in Hnone. apply re_search_none in Hnone.
    destruct (match_at_complete u post Hm) as [m E]. congruence.
  - rewrite append_cons in Hnone. simpl in Hnone.
    destruct (match_at (String c (pre +:+ u +:+ post))); [done|]. by apply IH.
Qed.

(** The locator finds a URL exactly on the pages that hold a match. *)
Lemma find_json_url_none_iff html : find_json_url html = None ↔ ¬ holds_match html.
Proof.
  split; [apply find_json_url_complete|].
  intros H. destruct (find_json_url html) as [u|] eqn:E; [|done].
  destruct H. apply find_json_url_sound in E as [Hm (pre & post & ->)].
  by exists pre, u, post.
Qed.

(** A URL the locator finds starts with the download host. *)
Lemma find_json_url_head html u :
  find_json_url html = Some u → ∃ rest, u = url_head +:+ rest.
Proof.
  intros H. apply find_json_url_sound in H as [(body & ds & -> & _) _]. by eexists.
Qed.

Lemma find_json_url_truthy html u :
  find_json_url html = Some u →
  url_truthy (Some u) = true ∧ u ≠ CONFIRM_URL ∧ u ≠ DETAILS_URL.
Proof.
  intros H. apply find_json_url_head in H as [rest ->]. by repeat split.
Qed.

Section DriverFacts.

Variable http_get : string → option string.
Variable decode_ignore : string → string.
Variable json_loads : string → option json.
Variable ip_network : json → option ip_version.
Variable py_repr : json → string.

Abbreviation download := (download_servicetags_json http_get decode_ignore json_loads).
Abbreviation run_main := (main http_get decode_ignore json_loads ip_network py_repr).

Lemma blind_urlopen url : blind (urlopen http_get url).
Proof.
  unfold urlopen. destruct (http_get url) as [body|].
  - by exists (Ok body), [].
  - by exists (Raise (URLError url)), [].
Qed.

Lemma blind_fetch_url url : blind (fetch_url http_get decode_ignore url).
Proof.
  unfold fetch_url. apply blind_bind; [apply blind_urlopen|intros ?; apply blind_ret].
Qed.

Lemma blind_download save_path : blind (download save_path).
Proof.
  unfold download_servicetags_json.
  apply blind_bind; [apply blind_fetch_url|intros html].
  apply blind_bind.
  { destruct (negb _); [|apply blind_ret].
    apply blind_bind; [apply blind_fetch_url|intros ?; apply blind_ret]. }
  intros json_url. destruct (negb _); [apply blind_raise|].
  apply blind_bind; [apply blind_eprint|intros _].
  apply blind_bind; [apply blind_urlopen|intros data_bytes].
  apply blind_bind.
  { destruct save_path; repeat blind_step. }
  intros _. destruct (json_loads data_bytes); [apply blind_ret|apply blind_raise].
Qed.

Lemma blind_main a : blind (run_main a).
Proof.
  unfold main.
  apply blind_bind; [apply blind_download|intros root].
  apply blind_bind; [apply blind_lift|intros values].
  apply blind_bind; [apply blind_build_edls|intros entries].
  apply blind_bind; [|intros _; apply blind_ret].
  destruct (url_truthy _); [apply blind_write_url_index|apply blind_ret].
Qed.

(** C7. Once the details page is fetched, the locator searches it for a
    piece of text that the pattern matches, and finds none exactly when the
    page holds none; if a URL is found there, the only other request is the download of that URL, and
    the confirmation page is not fetched; if none is found, the confirmation
    page is fetched next; the confirmation page is fetched exactly when the
    details page holds no match. If the confirmation page holds no match
    either, the locator raises the not-found error after these two requests,
    with no file written, and so does [main]: no JSON is downloaded and no
    file is written. *)
Theorem locator_fallback save_path w page :
  http_get DETAILS_URL = Some page →
  let run := download save_path w in
  (find_json_url (decode_ignore page) = None ↔ ¬ holds_match (decode_ignore page))
  ∧ (∀ u, find_json_url (decode_ignore page) = Some u →
          matches_pattern u
          ∧ requests run.2 = requests w ++ [DETAILS_URL; u] ∧ u ≠ CONFIRM_URL)
  ∧ (find_json_url (decode_ignore page) = None →
     ∃ rest, requests run.2 = requests w ++ DETAILS_URL :: CONFIRM_URL :: rest)
  ∧ (CONFIRM_URL ∈ drop (length (requests w)) (requests run.2)
     ↔ find_json_url (decode_ignore page) = None)
  ∧ (find_json_url (decode_ignore page) = None →
     ∀ page2, http_get CONFIRM_URL = Some page2 →
       find_json_url (decode_ignore page2) = None →
       let w' := World (files w) (dirs w) (stderr w)
                   (requests w ++ [DETAILS_URL; CONFIRM_URL]) in
       run = (Raise (RuntimeError not_found_msg), w')
       ∧ ∀ a, run_main a w = (Raise (RuntimeError not_found_msg), w')).
Proof.
  intros Hpage. simpl.
  assert (∀ u, find_json_url (decode_ignore page) = Some u →
            requests (download save_path w).2 = requests w ++ [DETAILS_URL; u]) as Hfound.
  { intros u Hu. destruct (find_json_url_truthy _ _ Hu) as (Ht & _ & _).
    unfold download_servicetags_json, fetch_url, urlopen. py_simpl.
    rewrite Hpage. cbn [negb]. rewrite Hu, Ht. cbn [negb]. rewrite Ht.
    cbn [negb default from_option id].
    destruct (http_get u) as [body|]; cbn [snd requests];
      [|by rewrite <- app_assoc].
    destruct save_path; destruct (json_loads body); cbn [snd requests];
      by rewrite <- app_assoc. }
  assert (find_json_url (decode_ignore page) = None →
          ∃ rest, requests (download save_path w).2
                  = requests w ++ DETAILS_URL :: CONFIRM_URL :: rest) as Hnone.
  { intros Hn.
    unfold download_servicetags_json, fetch_url, urlopen. py_simpl.
    rewrite Hpage. cbn [negb]. rewrite Hn. cbn [negb url_truthy].
    destruct (http_get CONFIRM_URL) as [page2|]; cbn [snd requests];
      [|exists []; by rewrite <- app_assoc].
    destruct (find_json_url (decode_ignore page2)) as [u|] eqn:Hu;
      [|exists []; cbn; by rewrite <- app_assoc].
    destruct (find_json_url_truthy _ _ Hu) as (Ht & _ & _). rewrite Ht.
    cbn [negb default from_option id].
    exists [u].
    destruct (http_get u) as [body|]; cbn [snd requests];
      [|by rewrite <- !app_assoc].
    destruct save_path; destruct (json_loads body); cbn [snd requests];
      by rewrite <- !app_assoc. }
  split; [apply find_json_url_none_iff|].
  split; [|split; [exact Hnone|split]].
  - intros u Hu. split; [by apply find_json_url_sound in Hu as [? _]|].
    split; [by apply Hfound|].
    by destruct (find_json_url_truthy _ _ Hu) as (_ & ? & _).
  - destruct (find_json_url (decode_ignore page)) as [u|] eqn:Hu.
    + rewrite (Hfound u eq_refl), drop_app_length.
      destruct (find_json_url_truthy _ _ Hu) as (_ & Hc & _).
      split; [|done]. intros Hin.
      apply elem_of_cons in Hin as [Hin|Hin]; [done|].
      apply elem_of_cons in Hin as [Hin|Hin]; [congruence|].
      by apply elem_of_nil in Hin.
    + destruct (Hnone eq_refl) as [rest ->]. rewrite drop_app_length.
      split; [done|]. intros _. apply elem_of_cons. right.
      apply elem_of_cons. by left.
  - intros Hn page2 Hpage2 Hn2.
    assert (download save_path w
            = (Raise (RuntimeError not_found_msg),
               World (files w) (dirs w) (stderr w)
                 (requests w ++ [DETAILS_URL; CONFIRM_URL]))) as Hrun.
    { unfold download_servicetags_json, fetch_url, urlopen. py_simpl.
      rewrite Hpage. simpl. rewrite Hn. simpl. rewrite Hpage2. simpl.
      rewrite Hn2. simpl. by rewrite <- app_assoc. }
    split; [exact Hrun|].
    intros a. unfold main. unfold mbind at 1, Py_bind at 1.
    assert (∀ sp, download sp w
            = (Raise (RuntimeError not_found_msg),
               World (files w) (dirs w) (stderr w)
                 (requests w ++ [DETAILS_URL; CONFIRM_URL]))) as Hany.
    { intros sp. unfold download_servicetags_json, fetch_url, urlopen. py_simpl.
      rewrite Hpage. simpl. rewrite Hn. simpl. rewrite Hpage2. simpl.
      rewrite Hn2. simpl. by rewrite <- app_assoc. }
    by rewrite Hany.
Qed.

(** C8. A second run of [main] with the same arguments and the same answers
    from the network returns what the first run returned and leaves every
    file exactly as the first run left it; whatever the files held before a
    run, each file is either rewritten with the same content or not touched.
    The same holds of [build_edls] and of [write_url_index] on their own. *)
Theorem rerun_same_files a w :
  (let first := run_main a w in
   let second := run_main a first.2 in
   second.1 = first.1 ∧ files second.2 = files first.2
   ∧ ∀ w0 p, files (run_main a w0).2 !! p = files first.2 !! p
             ∨ (files (run_main a w0).2 !! p = files w0 !! p
                ∧ files first.2 !! p = files w !! p))
  ∧ (∀ output_dir include_tags exclude_tags values,
       let build := build_edls ip_network py_repr output_dir include_tags exclude_tags
                      values in
       (build (build w).2).1 = (build w).1
       ∧ files (build (build w).2).2 = files (build w).2)
  ∧ (∀ entries output_dir base_url index_path,
       let index := write_url_index entries output_dir base_url index_path in
       files (index (index w).2).2 = files (index w).2).
Proof.
  split; [|split].
  - exact (blind_rerun _ (blind_main a) w).
  - intros output_dir include_tags exclude_tags values. simpl.
    destruct (blind_rerun _ (blind_build_edls ip_network py_repr output_dir
                               include_tags exclude_tags values) w) as (H1 & H2 & _).
    by split.
  - intros entries output_dir base_url index_path. simpl.
    by destruct (blind_rerun _ (blind_write_url_index entries output_dir base_url
                                  index_path) w) as (_ & H2 & _).
Qed.

End DriverFacts.

(** ** The examples of the specification and instances of the theorems *)

(** The end-to-end scenario: three lines in the combined file, one in each of
    the others, a warning and a summary on the diagnostic stream. *)
Example end_to_end :
  build_edls example_ip_network example_repr out_dir None None [example_tag] empty_world
  = (Ok [("Tag1", "Tag1")],
     World
       (<[parse_path "out/Tag1-v6.txt" := "2001:db8::/32" +:+ nl]>
          (<[parse_path "out/Tag1-v4.txt" := "10.0.0.0/8" +:+ nl]>
             (<[parse_path "out/Tag1.txt" :=
                  "10.0.0.0/8" +:+ nl +:+ "2001:db8::/32" +:+ nl +:+ "not-an-ip" +:+ nl]> ∅)))
       {[ out_dir ]}
       ["Skipping unrecognised address prefix: not-an-ip";
        "Wrote out/Tag1.txt (total=3, v4=1, v6=1)"]
       []).
Proof. vm_compute. reflexivity. Qed.

(** The index of the specification for the tag [East US]. *)
Example index_example :
  files (write_url_index [("East US", "East_US")] (parse_path "edl") "https://x.test"
           (parse_path "index.csv") empty_world).2 !! parse_path "index.csv"
  = Some ("East US,https://x.test/edl/East_US.txt,all" +:+ nl
          +:+ "East US,https://x.test/edl/East_US-v4.txt,ipv4" +:+ nl
          +:+ "East US,https://x.test/edl/East_US-v6.txt,ipv6" +:+ nl).
Proof. vm_compute. reflexivity. Qed.

(** A document without a list field is malformed. *)
Example missing_list_field :
  extract_values (JObject [("other", JArray [])]) = Raise (ValueError no_values_msg).
Proof. reflexivity. Qed.

(** The classification on the record of the end-to-end scenario. *)
Lemma prefix_classification_witness :
  example_body_run = (Ok [("Tag1", "Tag1")], example_body_run.2)
  ∧ [("Tag1", "Tag1")] ≠ []
  ∧ ∃ s prefixes l,
      tag_fields example_tag = Ok (JString s, prefixes) ∧ py_iter prefixes = Ok l
      ∧ files example_body_run.2 !! base_path out_dir (normalise_filename s)
        = Some (render example_repr l)
      ∧ files example_body_run.2 !! ipv4_path out_dir (normalise_filename s)
        = Some (render example_repr (of_version example_ip_network V4 l))
      ∧ files example_body_run.2 !! ipv6_path out_dir (normalise_filename s)
        = Some (render example_repr (of_version example_ip_network V6 l))
      ∧ ∀ pfx, pfx ∈ l →
          match example_ip_network pfx with
          | Some V4 => pfx ∈ of_version example_ip_network V4 l
                       ∧ pfx ∉ of_version example_ip_network V6 l
          | Some V6 => pfx ∈ of_version example_ip_network V6 l
                       ∧ pfx ∉ of_version example_ip_network V4 l
          | None => (pfx ∉ of_version example_ip_network V4 l)
                    ∧ (pfx ∉ of_version example_ip_network V6 l)
          end.
Proof.
  assert (example_body_run = (Ok [("Tag1", "Tag1")], example_body_run.2)) as H.
  { apply injective_projections; [vm_compute|]; reflexivity. }
  split; [exact H|]. split; [discriminate|].
  apply (prefix_classification example_ip_network example_repr out_dir None None
           example_tag [] empty_world [("Tag1", "Tag1")] example_body_run.2 H).
  discriminate.
Defined.

(** Counterexample to C3 as worded: with an include set that is given but
    empty, the record named [A] is written although [A] is no member of the
    set. *)
Lemma empty_include_still_writes :
  (build_edls example_ip_network example_repr out_dir (Some []) None
     [named_tag "A"] empty_world).1 = Ok [("A", "A")]
  ∧ files (build_edls example_ip_network example_repr out_dir (Some []) None
             [named_tag "A"] empty_world).2 !! parse_path "out/A.txt"
    = Some ("10.0.0.0/8" +:+ nl)
  ∧ "A" ∉ @nil string.
Proof.
  split; [vm_compute; reflexivity|]. split; [vm_compute; reflexivity|].
  apply not_elem_of_nil.
Qed.

(** The filters on records named [A], [B] and [C] with include [A; B] and
    exclude [B]. *)
Lemma name_filters_applied_witness :
  (tag_fields (named_tag "C") = Ok (JString "C", JArray [JString "10.0.0.0/8"])
   ∧ py_in (JString "C") ["A"; "B"] = false
   ∧ build_edls_body example_ip_network example_repr out_dir (Some ["A"; "B"])
       (Some ["B"]) (named_tag "C") [] empty_world = (Ok [], empty_world))
  ∧ (tag_fields (named_tag "B") = Ok (JString "B", JArray [JString "10.0.0.0/8"])
     ∧ py_in (JString "B") ["B"] = true
     ∧ build_edls_body example_ip_network example_repr out_dir (Some ["A"; "B"])
         (Some ["B"]) (named_tag "B") [] empty_world = (Ok [], empty_world))
  ∧ (build_edls example_ip_network example_repr out_dir (Some ["A"; "B"]) (Some ["B"])
       [named_tag "A"; named_tag "B"; named_tag "C"] empty_world).1
    = Ok [("A", "A")]
  ∧ Forall (λ e : string * string, e.1 = "A") [("A", "A")].
Proof.
  destruct (name_filters_applied example_ip_network example_repr out_dir)
    as (Hincl & Hexcl & _ & Honly).
  split; [|split; [|split]].
  - split; [reflexivity|]. split; [reflexivity|].
    apply (Hincl (Some ["A"; "B"]) (Some ["B"]) (named_tag "C") (JString "C")
             (JArray [JString "10.0.0.0/8"]) [] empty_world "A" ["B"]);
      reflexivity.
  - split; [reflexivity|]. split; [reflexivity|].
    apply (Hexcl (Some ["A"; "B"]) (Some ["B"]) (named_tag "B") (JString "B")
             (JArray [JString "10.0.0.0/8"]) [] empty_world ["B"]);
      reflexivity.
  - vm_compute. reflexivity.
  - apply (Honly [named_tag "A"; named_tag "B"; named_tag "C"] empty_world
             [("A", "A")]
             (build_edls example_ip_network example_repr out_dir (Some ["A"; "B"])
                (Some ["B"]) [named_tag "A"; named_tag "B"; named_tag "C"]
                empty_world).2).
    apply injective_projections; [vm_compute|]; reflexivity.
Defined.

(** A record without a name is skipped, the record of the scenario is
    written, and a document holding both and an empty record yields one
    pair. *)
Lemma records_skipped_or_written_witness :
  (tag_fields nameless_tag = Ok (JNull, JArray [JString "10.0.0.0/8"])
   ∧ truthy JNull = false
   ∧ build_edls_body example_ip_network example_repr out_dir None None
       nameless_tag [] empty_world = (Ok [], empty_world))
  ∧ (tag_fields example_tag = Ok (JString "Tag1", JArray example_prefixes)
     ∧ "Tag1" ≠ "" ∧ example_prefixes ≠ []
     ∧ passes_filters None None (JString "Tag1") = true
     ∧ build_edls_body example_ip_network example_repr out_dir None None
         example_tag [] empty_world
       = (Ok [("Tag1", "Tag1")],
          after_tag example_ip_network example_repr out_dir "Tag1" example_prefixes
            empty_world))
  ∧ (Forall (λ tag, record_ok tag = true) [example_tag; nameless_tag; JObject []]
     ∧ (build_edls example_ip_network example_repr out_dir None None
          [example_tag; nameless_tag; JObject []] empty_world).1
       = Ok [("Tag1", "Tag1")]).
Proof.
  destruct (records_skipped_or_written example_ip_network example_repr out_dir None None)
    as (Hskip & _ & Hwrite & Hrun & _).
  split; [|split].
  - split; [reflexivity|]. split; [reflexivity|].
    apply (Hskip nameless_tag JNull (JArray [JString "10.0.0.0/8"]) [] empty_world);
      [reflexivity|by left].
  - split; [reflexivity|]. split; [discriminate|]. split; [discriminate|].
    split; [reflexivity|].
    apply (Hwrite example_tag "Tag1" example_prefixes [] empty_world);
      [reflexivity|discriminate|discriminate|reflexivity].
  - assert (Forall (λ tag, record_ok tag = true) [example_tag; nameless_tag; JObject []])
      as Hok by (repeat constructor).
    split; [exact Hok|].
    by rewrite (Hrun [example_tag; nameless_tag; JObject []] empty_world Hok).
Defined.

(** [East US] and [West US] differ in their first character, so their bases
    differ; the files of the scenario are named from the base [Tag1]. *)
Lemma filename_derivation_witness :
  (String.get 0 "East US" ≠ String.get 0 "West US"
   ∧ String.get 0 "East US" ≠ Some " "%char
   ∧ String.get 0 "West US" ≠ Some " "%char
   ∧ normalise_filename "East US" ≠ normalise_filename "West US")
  ∧ (tag_fields example_tag = Ok (JString "Tag1", JArray example_prefixes)
     ∧ files example_body_run.2
       = <[joinpath out_dir ("Tag1" +:+ "-v6.txt") :=
             render example_repr (of_version example_ip_network V6 example_prefixes)]>
           (<[joinpath out_dir ("Tag1" +:+ "-v4.txt") :=
                render example_repr (of_version example_ip_network V4 example_prefixes)]>
              (<[joinpath out_dir ("Tag1" +:+ ".txt") :=
                   render example_repr example_prefixes]> ∅))).
Proof.
  destruct (filename_derivation example_ip_network example_repr out_dir None None)
    as (_ & _ & Hfiles & _ & Hinj).
  split.
  - split; [discriminate|]. split; [discriminate|]. split; [discriminate|].
    apply (Hinj "East US" "West US" 0); discriminate.
  - split; [reflexivity|].
    apply (Hfiles example_tag "Tag1" (JArray example_prefixes) example_prefixes []
             empty_world); reflexivity.
Defined.

(** Counterexample to C5 as worded: when the output directory is the root,
    the stripped directory is empty, and the URL has one slash where the
    wording has two. *)
Lemma root_directory_url_not_as_worded :
  files (write_url_index [("East US", "East_US")] (parse_path "/") "https://x.test"
           (parse_path "index.csv") empty_world).2 !! parse_path "index.csv"
  = Some ("East US,https://x.test/East_US.txt,all" +:+ nl
          +:+ "East US,https://x.test/East_US-v4.txt,ipv4" +:+ nl
          +:+ "East US,https://x.test/East_US-v6.txt,ipv6" +:+ nl)
  ∧ worded_url "https://x.test" (parse_path "/") "East_US.txt"
    = "https://x.test//East_US.txt"
  ∧ files (write_url_index [("East US", "East_US")] (parse_path "/") "https://x.test"
             (parse_path "index.csv") empty_world).2 !! parse_path "index.csv"
    ≠ Some (Str.join nl (worded_lines "https://x.test" (parse_path "/")
                           ("East US", "East_US")) +:+ nl).
Proof.
  split; [vm_compute; reflexivity|]. split; [vm_compute; reflexivity|].
  vm_compute. discriminate.
Qed.

(** A network with no link on either page makes [main] fail after two
    requests; a network with the link on the details page is asked for the
    details page and the document. *)
Lemma locator_fallback_witness :
  (no_link_get DETAILS_URL = Some "<html>details</html>"
   ∧ find_json_url "<html>details</html>" = None
   ∧ no_link_get CONFIRM_URL = Some "<html>confirmation</html>"
   ∧ find_json_url "<html>confirmation</html>" = None
   ∧ main no_link_get id example_loads example_ip_network example_repr
       example_args empty_world
     = (Raise (RuntimeError not_found_msg),
        World ∅ ∅ [] [DETAILS_URL; CONFIRM_URL]))
  ∧ (link_get DETAILS_URL
     = Some ("<a href=" +:+ String dquote example_json_url +:+ String dquote ">")
     ∧ find_json_url ("<a href=" +:+ String dquote example_json_url
                      +:+ String dquote ">")
       = Some example_json_url
     ∧ requests (download_servicetags_json link_get id example_loads None
                   empty_world).2
       = [DETAILS_URL; example_json_url]).
Proof.
  split.
  - destruct (locator_fallback no_link_get id example_loads example_ip_network
                example_repr None empty_world "<html>details</html>" eq_refl)
      as (_ & _ & _ & _ & Hfail).
    split; [reflexivity|]. split; [vm_compute; reflexivity|].
    split; [reflexivity|]. split; [vm_compute; reflexivity|].
    apply (Hfail ltac:(vm_compute; reflexivity) "<html>confirmation</html>" eq_refl
             ltac:(vm_compute; reflexivity)).
  - destruct (locator_fallback link_get id example_loads example_ip_network
                example_repr None empty_world
                ("<a href=" +:+ String dquote example_json_url +:+ String dquote ">")
                eq_refl)
      as (_ & Hfound & _).
    split; [reflexivity|]. split; [vm_compute; reflexivity|].
    apply (Hfound example_json_url). vm_compute. reflexivity.
Defined.

(** A whole run on a network whose details page holds the link. *)
Example main_example :
  (main link_get id example_loads example_ip_network example_repr
     example_args empty_world).1 = Ok 0%Z
  ∧ requests (main link_get id example_loads example_ip_network example_repr
                example_args empty_world).2
    = [DETAILS_URL; example_json_url]
  ∧ files (main link_get id example_loads example_ip_network example_repr
             example_args empty_world).2 !! parse_path "out/Tag1-v4.txt"
    = Some ("10.0.0.0/8" +:+ nl)
  ∧ files (main link_get id example_loads example_ip_network example_repr
             example_args empty_world).2 !! parse_path "index.csv"
    = Some ("Tag1,https://x.test/out/Tag1.txt,all" +:+ nl
            +:+ "Tag1,https://x.test/out/Tag1-v4.txt,ipv4" +:+ nl
            +:+ "Tag1,https://x.test/out/Tag1-v6.txt,ipv6" +:+ nl).
Proof. repeat split; vm_compute; reflexivity. Qed.

(** * Further properties of the code *)

(** ** [extract_values], case by case *)

(** X1. [extract_values] returns a list exactly when the document is an
    object whose ['values'] field is a non-empty list (that list is returned),
    or whose ['values'] field is missing or false and whose ['value'] field is
    a list (that one is returned, empty or not). Any other object raises the
    malformed-document error, and a document that is not an object raises
    [AttributeError]. *)
Theorem extract_values_exact root :
  (∀ xs, extract_values root = Ok xs
         ↔ ∃ kvs, root = JObject kvs
             ∧ (dict_lookup "values" kvs = Some (JArray xs) ∧ xs ≠ []
                ∨ truthy (default JNull (dict_lookup "values" kvs)) = false
                  ∧ dict_lookup "value" kvs = Some (JArray xs)))
  ∧ ((∃ xs, extract_values root = Ok xs)
     ∨ (∃ kvs, root = JObject kvs)
       ∧ extract_values root = Raise (ValueError no_values_msg)
     ∨ (∀ kvs, root ≠ JObject kvs) ∧ extract_values root = Raise AttributeError).
Proof.
  destruct root as [| | | | |xs0|kvs];
    try (split; [intros xs; split; [done|by intros (kvs & ? & _)]
                |right; right; by split]).
  unfold extract_values, py_get, py_or. cbn [rbind].
  destruct (truthy (default JNull (dict_lookup "values" kvs))) eqn:Ta.
  - split.
    + intros xs. split.
      * destruct (dict_lookup "values" kvs) as [[]|] eqn:E; cbn in *; try done.
        intros [= ->]. exists kvs. split; [done|]. left. split; [done|].
        intros ->. done.
      * intros (kvs' & [= <-] & [[E _]|[Hf _]]); [by rewrite E|congruence].
    + destruct (default JNull (dict_lookup "values" kvs)); eauto 6.
  - split.
    + intros xs. split.
      * destruct (dict_lookup "value" kvs) as [[]|] eqn:E; cbn in *; try done.
        intros [= ->]. exists kvs. split; [done|]. by right.
      * intros (kvs' & [= <-] & [[E Hne]|[_ E]]); [|by rewrite E].
        rewrite E in Ta. by destruct xs.
    + destruct (default JNull (dict_lookup "value" kvs)); eauto 6.
Qed.

(** ** [normalise_filename] *)

Lemma free_of_replace a b s :
  a ≠ b → free_of a (Str.replace_char a b s) = true.
Proof.
  intros Hne. unfold free_of, Str.replace_char.
  induction s as [|c s IH]; [done|]. simpl. rewrite IH, andb_true_r.
  destruct (Ascii.eqb_spec c a) as [->|Hc].
  - apply negb_true_iff. apply Ascii.eqb_neq. congruence.
  - apply negb_true_iff. by apply Ascii.eqb_neq.
Qed.

Lemma replace_free a b s : free_of a s = true → Str.replace_char a b s = s.
Proof.
  unfold free_of, Str.replace_char.
  induction s as [|c s IH]; [done|]. simpl. intros H.
  apply andb_prop in H as [Hc Hs]. apply negb_true_iff in Hc.
  rewrite Hc. by rewrite (IH Hs).
Qed.

(** X2. The base [normalise_filename] gives never holds a space; a name
    without a space is its own base; and normalising a base changes
    nothing. *)
Theorem normalise_filename_no_space name :
  free_of " " (normalise_filename name) = true
  ∧ (free_of " " name = true → normalise_filename name = name)
  ∧ normalise_filename (normalise_filename name) = normalise_filename name.
Proof.
  assert (free_of " " (normalise_filename name) = true) as H
    by by apply free_of_replace.
  split; [exact H|]. split; [apply replace_free|].
  by apply replace_free.
Qed.

Lemma normalise_filename_no_space_witness :
  free_of " " "AzureCloud.eastus" = true
  ∧ normalise_filename "AzureCloud.eastus" = "AzureCloud.eastus".
Proof.
  split; [reflexivity|].
  by apply (normalise_filename_no_space "AzureCloud.eastus").
Defined.

(** ** The base URL of the index *)

Lemma rstrip_repeat c n : Str.rstrip c (repeat_char c n) = "".
Proof.
  induction n as [|n IH]; [done|]. simpl. by rewrite IH, Ascii.eqb_refl.
Qed.

Lemma rstrip_append_repeat c s n :
  Str.rstrip c (s +:+ repeat_char c n) = Str.rstrip c s.
Proof.
  induction s as [|a s IH]; [apply rstrip_repeat|].
  rewrite append_cons. simpl. by rewrite IH.
Qed.

Lemma last_char_cons x r : r ≠ "" → last_char (String x r) = last_char r.
Proof.
  intros Hr. destruct r as [|y r]; [done|]. unfold last_char. simpl.
  by rewrite Nat.sub_0_r.
Qed.

Lemma last_char_append a b : b ≠ "" → last_char (a +:+ b) = last_char b.
Proof.
  intros Hb. induction a as [|x a IH]; [done|].
  rewrite append_cons, last_char_cons; [done|].
  destruct a; [done|]. by rewrite append_cons.
Qed.

(** X3. Trailing slashes of the base URL play no part in the index: the
    prefix of the URLs, and so the whole run of [write_url_index], is the same
    with any number of them added; and the prefix never ends in a slash, so
    the slash before the file name is the only one there. *)
Theorem base_url_trailing_slashes entries output_dir base_url index_path n :
  url_prefix_of output_dir (base_url +:+ repeat_char "/" n)
  = url_prefix_of output_dir base_url
  ∧ last_char (url_prefix_of output_dir base_url) ≠ Some "/"%char
  ∧ write_url_index entries output_dir (base_url +:+ repeat_char "/" n) index_path
    = write_url_index entries output_dir base_url index_path.
Proof.
  assert (url_prefix_of output_dir (base_url +:+ repeat_char "/" n)
          = url_prefix_of output_dir base_url) as H.
  { unfold url_prefix_of. by rewrite rstrip_append_repeat. }
  split; [exact H|]. split.
  - unfold url_prefix_of.
    destruct (strip_spec "/" (as_posix output_dir)) as (_ & _ & _ & _ & Hlast).
    destruct (rstrip_spec "/" base_url) as (_ & _ & Hbase).
    destruct (Str.strip "/" (as_posix output_dir)) as [|c rel] eqn:E; [done|].
    cbn [Str.truthy String.eqb negb].
    rewrite last_char_append; [|done].
    change ("/" +:+ String c rel) with (String "/" (String c rel)).
    by rewrite last_char_cons.
  - unfold write_url_index. by rewrite H.
Qed.

(** ** The default base URL *)

(** X4. The default of [--url-base] is never empty. A non-empty
    [EDL_URL_BASE] is taken as it is; without one the default is a
    [raw.githubusercontent.com] URL. A variable that is set to the empty
    string counts as unset. *)
Theorem default_url_base_resolution environ :
  Str.truthy (default_url_base environ) = true
  ∧ (∀ u, environ !! "EDL_URL_BASE" = Some u → u ≠ "" →
          default_url_base environ = u)
  ∧ (url_truthy (environ !! "EDL_URL_BASE") = false →
     ∃ rest, default_url_base environ = RAW_HOST +:+ rest)
  ∧ (∀ k, k ∈ ["EDL_URL_BASE"; "GITHUB_REPOSITORY"; "GITHUB_REF_NAME"] →
          default_url_base (<[k := ""]> environ)
          = default_url_base (delete k environ)).
Proof.
  unfold default_url_base, compute_default_url_base. repeat split.
  - destruct (environ !! "EDL_URL_BASE") as [u|] eqn:E; simpl.
    + destruct (Str.truthy u) eqn:Hu; [done|].
      by destruct (url_truthy _ && url_truthy _).
    + by destruct (url_truthy _ && url_truthy _).
  - intros u -> Hu. simpl. unfold Str.truthy.
    apply String.eqb_neq in Hu. by rewrite Hu.
  - intros ->. destruct (url_truthy _ && url_truthy _); by eexists.
  - intros k Hk.
    repeat (apply elem_of_cons in Hk as [->|Hk]);
      [..|by apply elem_of_nil in Hk];
      rewrite ?lookup_insert_eq, ?lookup_delete_eq;
      rewrite ?lookup_insert_ne, ?lookup_delete_ne by done;
      simpl; by rewrite ?andb_false_r.
Qed.

Lemma default_url_base_resolution_witness :
  ({[ "EDL_URL_BASE" := "https://x.test" ]} : gmap string string) !! "EDL_URL_BASE"
  = Some "https://x.test"
  ∧ "https://x.test" ≠ ""
  ∧ default_url_base {[ "EDL_URL_BASE" := "https://x.test" ]} = "https://x.test".
Proof.
  split; [reflexivity|]. split; [discriminate|].
  apply (default_url_base_resolution {[ "EDL_URL_BASE" := "https://x.test" ]});
    [reflexivity|discriminate].
Defined.

(** ** Splitting and writing prefix lists *)

Lemma split_free c s : free_of c s = true → Str.split c s = [s].
Proof.
  unfold free_of. induction s as [|a s IH]; [done|]. simpl. intros H.
  apply andb_prop in H as [Ha Hs]. apply negb_true_iff in Ha.
  by rewrite Ha, (IH Hs).
Qed.

(** Splitting a text at its first separator. *)
Lemma split_first c a rest :
  free_of c a = true → Str.split c (a +:+ String c rest) = a :: Str.split c rest.
Proof.
  unfold free_of. induction a as [|x a IH]; intros H.
  - simpl. by rewrite Ascii.eqb_refl.
  - simpl in H. apply andb_prop in H as [Hx Ha]. apply negb_true_iff in Hx.
    rewrite append_cons. simpl. by rewrite Hx, (IH Ha).
Qed.

Section PrefixFileFacts.

Variable ip_network : json → option ip_version.
Variable py_repr : json → string.

Lemma concat_cons_cons sep (x y : string) l :
  String.concat sep (x :: y :: l) = x +:+ sep +:+ String.concat sep (y :: l).
Proof. reflexivity. Qed.

Lemma render_cons pfx l :
  render py_repr (pfx :: l) = fmt py_repr pfx +:+ nl +:+ render py_repr l.
Proof.
  unfold render. rewrite fmap_cons. destruct l as [|q l].
  - reflexivity.
  - rewrite fmap_cons, concat_cons_cons, append_assoc. by rewrite append_nil_l.
Qed.

Lemma split_render l :
  Forall (λ pfx, free_of newline (fmt py_repr pfx) = true) l →
  Str.split newline (render py_repr l) = (fmt py_repr <$> l) ++ [""].
Proof.
  induction 1 as [|pfx l Hp _ IH]; [done|].
  rewrite render_cons. change (nl +:+ render py_repr l)
    with (String newline (render py_repr l)).
  by rewrite (split_first _ _ _ Hp), IH.
Qed.

(** X5. [split_prefixes_by_ip_version] returns the prefixes that parse as
    IPv4 networks and those that parse as IPv6 networks, each in the order of
    the input; together they are the parseable prefixes, and the sizes of the
    two lists and the number of warnings add up to the size of the input. It
    prints one warning for each other prefix and touches nothing else. A
    value that cannot be iterated raises with the world untouched. *)
Theorem split_prefixes_partition prefixes w :
  (∀ l, py_iter prefixes = Ok l →
     split_prefixes_by_ip_version ip_network py_repr prefixes w
     = (Ok (of_version ip_network V4 l, of_version ip_network V6 l),
        World (files w) (dirs w) (stderr w ++ skip_lines ip_network py_repr l)
          (requests w))
     ∧ length l = length (of_version ip_network V4 l)
                  + length (of_version ip_network V6 l)
                  + length (skip_lines ip_network py_repr l)
     ∧ of_version ip_network V4 l ++ of_version ip_network V6 l
       ≡ₚ filter (λ pfx, is_Some (ip_network pfx)) l)
  ∧ (∀ e, py_iter prefixes = Raise e →
       split_prefixes_by_ip_version ip_network py_repr prefixes w = (Raise e, w)).
Proof.
  split.
  - intros l Hl. split; [|split].
    + unfold split_prefixes_by_ip_version. py_simpl. rewrite Hl. simpl.
      by rewrite split_loop_spec.
    + unfold of_version, skip_lines. rewrite length_fmap. clear Hl.
      induction l as [|pfx l IH]; [done|].
      rewrite !filter_cons.
      destruct (ip_network pfx) as [[]|];
        repeat case_decide; try congruence; simpl; lia.
    + unfold of_version. clear Hl. induction l as [|pfx l IH]; [done|].
      rewrite !filter_cons.
      destruct (ip_network pfx) as [[]|] eqn:E;
        repeat case_decide; try congruence;
        try (by exfalso; eauto using mk_is_Some);
        try (exfalso; by eapply is_Some_None).
      * simpl. by rewrite IH.
      * rewrite <- Permutation_middle. by rewrite IH.
  - intros e He. unfold split_prefixes_by_ip_version. py_simpl. by rewrite He.
Qed.

(** X6. [write_prefix_file] puts each prefix on a line of its own and returns
    their number: the file read back and split at newlines gives the prefixes
    in order, followed by one empty piece, as long as no prefix holds a
    newline; so two lists of such prefixes that differ give different files.
    A value that cannot be iterated raises before the file is opened. *)
Theorem write_prefix_file_lines path prefixes w :
  (∀ l, py_iter prefixes = Ok l →
     write_prefix_file py_repr path prefixes w
     = (Ok (length l),
        World (<[path := render py_repr l]> (files w)) (dirs w) (stderr w) (requests w))
     ∧ (Forall (λ pfx, free_of newline (fmt py_repr pfx) = true) l →
        Str.split newline (render py_repr l) = (fmt py_repr <$> l) ++ [""]
        ∧ ∀ l', Forall (λ pfx, free_of newline (fmt py_repr pfx) = true) l' →
                render py_repr l' = render py_repr l →
                fmt py_repr <$> l' = fmt py_repr <$> l))
  ∧ (∀ e, py_iter prefixes = Raise e →
       write_prefix_file py_repr path prefixes w = (Raise e, w)).
Proof.
  split.
  - intros l Hl. split.
    + unfold write_prefix_file. py_simpl. by rewrite Hl.
    + intros Hfree. split; [by apply split_render|].
      intros l' Hfree' E. apply (f_equal (Str.split newline)) in E.
      rewrite !split_render in E by done. by apply app_inv_tail in E.
  - intros e He. unfold write_prefix_file. py_simpl. by rewrite He.
Qed.

End PrefixFileFacts.

Lemma split_prefixes_partition_witness :
  py_iter (JArray example_prefixes) = Ok example_prefixes
  ∧ split_prefixes_by_ip_version example_ip_network example_repr
      (JArray example_prefixes) empty_world
    = (Ok ([JString "10.0.0.0/8"], [JString "2001:db8::/32"]),
       World ∅ ∅ ["Skipping unrecognised address prefix: not-an-ip"] [])
  ∧ py_iter (JInt 5) = Raise TypeError
  ∧ split_prefixes_by_ip_version example_ip_network example_repr (JInt 5) empty_world
    = (Raise TypeError, empty_world).
Proof.
  split; [reflexivity|]. split.
  - destruct (split_prefixes_partition example_ip_network example_repr
                (JArray example_prefixes) empty_world) as [Hok _].
    destruct (Hok example_prefixes eq_refl) as [Hrun _]. exact Hrun.
  - split; [reflexivity|].
    destruct (split_prefixes_partition example_ip_network example_repr
                (JInt 5) empty_world) as [_ Hraise].
    exact (Hraise TypeError eq_refl).
Defined.

Lemma write_prefix_file_lines_witness :
  py_iter (JArray example_prefixes) = Ok example_prefixes
  ∧ Forall (λ pfx, free_of newline (fmt example_repr pfx) = true) example_prefixes
  ∧ Str.split newline (render example_repr example_prefixes)
    = ["10.0.0.0/8"; "2001:db8::/32"; "not-an-ip"; ""].
Proof.
  split; [reflexivity|].
  assert (Forall (λ pfx, free_of newline (fmt example_repr pfx) = true)
            example_prefixes) as H by (repeat constructor).
  split; [exact H|].
  destruct (write_prefix_file_lines example_repr out_dir (JArray example_prefixes)
              empty_world) as [Hok _].
  destruct (Hok example_prefixes eq_refl) as [_ Hlines].
  destruct (Hlines H) as [Hsplit _]. exact Hsplit.
Defined.

(** ** [build_edls]: failures, frame and collisions *)

Section BuildMoreFacts.

Variable ip_network : json → option ip_version.
Variable py_repr : json → string.
Variable output_dir : Path.
Variables include_tags exclude_tags : option (list string).

Abbreviation loop :=
  (build_edls_loop ip_network py_repr output_dir include_tags exclude_tags).
Abbreviation effect :=
  (tag_effect ip_network py_repr output_dir include_tags exclude_tags).

Lemma build_edls_loop_app values1 values2 written w :
  loop (values1 ++ values2) written w
  = match loop values1 written w with
    | (Ok entries, w') => loop values2 entries w'
    | (Raise e, w') => (Raise e, w')
    end.
Proof.
  revert written w. induction values1 as [|tag values1 IH]; intros written w; [done|].
  simpl. unfold mbind, Py_bind.
  destruct (build_edls_body _ _ _ _ _ tag written w) as [[entries|e] w1]; [|done].
  apply IH.
Qed.

Lemma tag_fields_raises tag e : tag_fields tag = Raise e → e = AttributeError.
Proof.
  unfold tag_fields, py_get.
  destruct tag; simpl; try by intros [= <-].
  destruct (default (JObject []) (dict_lookup "properties" kvs));
    simpl; by intros [= <-].
Qed.

(** X7. [build_edls] is not all-or-nothing: at the first record whose fields
    cannot be read (a record that is no object, or whose properties are no
    object) it raises [AttributeError]; the files of the records before it
    stay written and the records after it are not looked at. *)
Theorem build_edls_stops_at_unreadable good bad rest e w :
  Forall (λ tag, record_ok tag = true) good →
  tag_fields bad = Raise e →
  e = AttributeError
  ∧ build_edls ip_network py_repr output_dir include_tags exclude_tags
      (good ++ bad :: rest) w
    = (Raise AttributeError, foldl effect (after_mkdir output_dir w) good).
Proof.
  intros Hgood Hbad. pose proof (tag_fields_raises _ _ Hbad) as ->.
  split; [done|]. unfold build_edls. py_simpl.
  rewrite build_edls_loop_app, (build_edls_loop_ok _ _ _ _ _ _ _ _ Hgood).
  simpl. unfold mbind, Py_bind.
  by rewrite (build_edls_body_unreadable _ _ _ _ _ _ _ _ _ Hbad).
Qed.

(** X8. A record whose name is true but no string (a number, say) and whose
    prefix list is not empty makes [build_edls] raise [AttributeError] with
    nothing written for it, unless a non-empty include set is given: then the
    record is skipped, the name being no member of the set. *)
Theorem non_string_name tag name prefixes written w :
  tag_fields tag = Ok (name, prefixes) →
  truthy name = true → truthy prefixes = true →
  (∀ s, name ≠ JString s) →
  build_edls_body ip_network py_repr output_dir include_tags exclude_tags
    tag written w
  = if tags_truthy include_tags then (Ok written, w)
    else (Raise AttributeError, w).
Proof.
  intros Hf Hn Hp Hs.
  rewrite (build_edls_body_unfold _ _ _ _ _ _ _ _ _ _ Hf), Hn, Hp.
  unfold passes_filters.
  assert (∀ tags, py_in name tags = false) as Hin.
  { intros tags. destruct name; try done. by destruct (Hs s). }
  rewrite !Hin. simpl. rewrite andb_false_r, andb_true_r. simpl.
  destruct (tags_truthy include_tags); simpl; [done|].
  destruct name; try done. by destruct (Hs s).
Qed.

Lemma after_tag_frame base l w :
  let w' := after_tag ip_network py_repr output_dir base l w in
  requests w' = requests w ∧ dirs w' = dirs w
  ∧ (∀ p, is_Some (files w !! p) → is_Some (files w' !! p))
  ∧ (∀ p, p ∉ [base_path output_dir base; ipv4_path output_dir base;
               ipv6_path output_dir base] →
          files w' !! p = files w !! p).
Proof.
  simpl. repeat split.
  - intros p Hp. rewrite !lookup_insert. by repeat case_decide.
  - intros p Hp. rewrite !not_elem_of_cons in Hp. destruct Hp as (? & ? & ? & _).
    by rewrite !lookup_insert_ne.
Qed.

Lemma build_edls_loop_frame values written w r w' :
  loop values written w = (r, w') →
  requests w' = requests w ∧ dirs w' = dirs w
  ∧ (∀ p, is_Some (files w !! p) → is_Some (files w' !! p))
  ∧ (∀ entries, r = Ok entries →
       ∃ added, entries = written ++ added
         ∧ ∀ p, p ∉ entry_paths output_dir added → files w' !! p = files w !! p).
Proof.
  revert written w. induction values as [|tag values IH]; intros written w; simpl.
  - py_simpl. intros [= <- <-]. repeat split; try done.
    intros entries [= <-]. exists []. by rewrite app_nil_r.
  - unfold mbind, Py_bind.
    destruct (build_edls_body_cases ip_network py_repr output_dir include_tags
                exclude_tags tag written w)
      as [[e ->]|[->|(s & prefixes & l & _ & _ & _ & ->)]].
    + intros [= <- <-]. repeat split; done.
    + apply IH.
    + intros H. apply IH in H as (Hr & Hd & Hdom & Hfr).
      destruct (after_tag_frame (normalise_filename s) l w) as (Hr1 & Hd1 & Hdom1 & Hfr1).
      split; [congruence|]. split; [congruence|]. split; [by eauto|].
      intros entries ->. destruct (Hfr _ eq_refl) as (added & -> & Hsame).
      exists ((s, normalise_filename s) :: added). split; [by rewrite <- app_assoc|].
      intros p Hp. unfold entry_paths in Hp. rewrite bind_cons in Hp.
      rewrite not_elem_of_app in Hp. destruct Hp as [Hp1 Hp2].
      rewrite (Hsame p Hp2). by apply Hfr1.
Qed.

(** X9. [build_edls] makes no request, creates no directory but the output
    directory and its ancestors, and removes no file; when it returns, the
    only files it has changed are the three files of each returned pair, so
    files left by earlier runs for tags that are gone stay as they were. *)
Theorem build_edls_frame values w r w' :
  build_edls ip_network py_repr output_dir include_tags exclude_tags values w
  = (r, w') →
  requests w' = requests w
  ∧ dirs w' = dirs w ∪ list_to_set (self_and_ancestors output_dir)
  ∧ (∀ p, is_Some (files w !! p) → is_Some (files w' !! p))
  ∧ (∀ entries, r = Ok entries →
       ∀ p, p ∉ entry_paths output_dir entries → files w' !! p = files w !! p).
Proof.
  unfold build_edls. py_simpl. intros H.
  apply build_edls_loop_frame in H as (Hr & Hd & Hdom & Hfr).
  repeat split; try done.
  intros entries ->. by destruct (Hfr _ eq_refl) as (added & -> & Hsame).
Qed.

Lemma last_record_files before tag s l w :
  Forall (λ tag, record_ok tag = true) before →
  tag_fields tag = Ok (JString s, JArray l) → s ≠ "" → l ≠ [] →
  passes_filters include_tags exclude_tags (JString s) = true →
  let base := normalise_filename s in
  let run := build_edls ip_network py_repr output_dir include_tags exclude_tags
               (before ++ [tag]) w in
  run.1 = Ok (omap (entry_of include_tags exclude_tags) before ++ [(s, base)])
  ∧ files run.2 !! base_path output_dir base = Some (render py_repr l)
  ∧ files run.2 !! ipv4_path output_dir base
    = Some (render py_repr (of_version ip_network V4 l))
  ∧ files run.2 !! ipv6_path output_dir base
    = Some (render py_repr (of_version ip_network V6 l)).
Proof.
  intros Hbefore Hf Hs Hl Hp. simpl.
  assert (truthy (JString s) && truthy (JArray l)
          && passes_filters include_tags exclude_tags (JString s) = true) as Ht.
  { rewrite Hp. simpl. unfold Str.truthy. apply String.eqb_neq in Hs.
    rewrite Hs. by destruct l. }
  unfold build_edls. py_simpl.
  rewrite build_edls_loop_app, (build_edls_loop_ok _ _ _ _ _ _ _ _ Hbefore).
  simpl. unfold mbind, Py_bind.
  rewrite (build_edls_body_write _ _ _ _ _ _ _ _ _ _ _ Hf eq_refl Ht). simpl.
  destruct (edl_paths_distinct output_dir (normalise_filename s)) as (H1 & H2 & H3).
  repeat split.
  - rewrite lookup_insert_ne, lookup_insert_ne by done. apply lookup_insert_eq.
  - rewrite lookup_insert_ne by done. apply lookup_insert_eq.
  - apply lookup_insert_eq.
Qed.

(** X10. The last record of a document wins its files: whatever the records
    before it wrote, after the run its three files hold its own prefixes. So
    when an earlier record has the same base (names that differ by a space
    against an underscore), both pairs are returned but the files hold the
    later record's prefixes only. *)
Theorem last_record_wins before earlier s1 tag s l w :
  Forall (λ tag, record_ok tag = true) before →
  earlier ∈ before →
  entry_of include_tags exclude_tags earlier = Some (s1, normalise_filename s) →
  tag_fields tag = Ok (JString s, JArray l) → s ≠ "" → l ≠ [] →
  passes_filters include_tags exclude_tags (JString s) = true →
  let base := normalise_filename s in
  let run := build_edls ip_network py_repr output_dir include_tags exclude_tags
               (before ++ [tag]) w in
  (∃ entries, run.1 = Ok entries ∧ (s1, base) ∈ entries ∧ (s, base) ∈ entries)
  ∧ files run.2 !! base_path output_dir base = Some (render py_repr l)
  ∧ files run.2 !! ipv4_path output_dir base
    = Some (render py_repr (of_version ip_network V4 l))
  ∧ files run.2 !! ipv6_path output_dir base
    = Some (render py_repr (of_version ip_network V6 l)).
Proof.
  intros Hbefore Hin He Hf Hs Hl Hp.
  destruct (last_record_files before tag s l w Hbefore Hf Hs Hl Hp)
    as (Hrun & F1 & F2 & F3).
  simpl. split; [|done].
  eexists. split; [exact Hrun|]. split.
  - apply elem_of_app. left. apply list_elem_of_omap. by exists earlier.
  - apply elem_of_app. right. apply elem_of_cons. by left.
Qed.

Lemma normalise_filename_append a b :
  normalise_filename (a +:+ b) = normalise_filename a +:+ normalise_filename b.
Proof.
  unfold normalise_filename, Str.replace_char.
  induction a as [|x a IH]; [done|]. rewrite append_cons. simpl.
  rewrite append_cons. by f_equal.
Qed.

(** X11. The names of the files of different tags can meet: the combined
    file of a tag named [X-v4] is the v4 file of the tag named [X], and
    likewise for [-v6]. So when a record named [X-v4] is the last of a
    document, the v4 file of [X] holds all the prefixes of [X-v4], whatever
    [X] wrote there. *)
Theorem variant_suffix_collision before tag s l w :
  Forall (λ tag, record_ok tag = true) before →
  tag_fields tag = Ok (JString (s +:+ "-v4"), JArray l) → l ≠ [] →
  passes_filters include_tags exclude_tags (JString (s +:+ "-v4")) = true →
  (∀ base, base_path output_dir (base +:+ "-v4") = ipv4_path output_dir base
           ∧ base_path output_dir (base +:+ "-v6") = ipv6_path output_dir base)
  ∧ files (build_edls ip_network py_repr output_dir include_tags exclude_tags
             (before ++ [tag]) w).2 !! ipv4_path output_dir (normalise_filename s)
    = Some (render py_repr l).
Proof.
  intros Hbefore Hf Hl Hp.
  assert (∀ base, base_path output_dir (base +:+ "-v4") = ipv4_path output_dir base
                  ∧ base_path output_dir (base +:+ "-v6") = ipv6_path output_dir base)
    as Hmeet.
  { intros base. unfold base_path, ipv4_path, ipv6_path.
    by rewrite !append_assoc. }
  split; [exact Hmeet|].
  assert (s +:+ "-v4" ≠ "") as Hs by (by destruct s).
  destruct (last_record_files before tag (s +:+ "-v4") l w Hbefore Hf Hs Hl Hp)
    as (_ & H & _).
  rewrite normalise_filename_append in H.
  change (normalise_filename "-v4") with "-v4" in H.
  by rewrite (proj1 (Hmeet _)) in H.
Qed.

End BuildMoreFacts.

(** ** The index file read back, and the order of its entries *)

Lemma free_of_append c a b : free_of c (a +:+ b) = free_of c a && free_of c b.
Proof.
  unfold free_of. induction a as [|x a IH]; [done|].
  rewrite append_cons. simpl. by rewrite IH, andb_assoc.
Qed.

Lemma free_of_rstrip c d s : free_of c s = true → free_of c (Str.rstrip d s) = true.
Proof.
  intros H. destruct (rstrip_spec d s) as (n & E & _). rewrite E in H.
  rewrite free_of_append in H. by apply andb_prop in H as [? _].
Qed.

Lemma free_of_strip c d s : free_of c s = true → free_of c (Str.strip d s) = true.
Proof.
  intros H. destruct (strip_spec d s) as (n & m & E & _). rewrite E in H.
  rewrite !free_of_append in H.
  apply andb_prop in H as [_ H]. by apply andb_prop in H as [? _].
Qed.

Lemma join_cons_cons sep (x y : string) l :
  Str.join sep (x :: y :: l) = x +:+ sep +:+ Str.join sep (y :: l).
Proof. reflexivity. Qed.

Lemma split_join_lines lines :
  lines ≠ [] → Forall (λ line, free_of newline line = true) lines →
  Str.split newline (Str.join nl lines +:+ nl) = lines ++ [""].
Proof.
  intros Hne Hfree. induction Hfree as [|x l Hx Hl IH]; [done|].
  destruct l as [|y l].
  - change (Str.join nl [x] +:+ nl) with (x +:+ String newline "").
    by rewrite (split_first _ _ _ Hx).
  - rewrite join_cons_cons, !append_assoc.
    change (nl +:+ Str.join nl (y :: l) +:+ nl)
      with (String newline (Str.join nl (y :: l) +:+ nl)).
    rewrite (split_first _ _ _ Hx), IH; done.
Qed.

Lemma index_url_free base_url output_dir filename :
  free_of newline base_url = true → free_of newline (as_posix output_dir) = true →
  free_of newline filename = true →
  free_of newline (index_url base_url output_dir filename) = true.
Proof.
  intros Hb Ho Hf. unfold index_url, worded_url.
  destruct (Str.truthy _); rewrite !free_of_append, Hf;
    rewrite ?(free_of_rstrip _ _ _ Hb), ?(free_of_strip _ _ _ Ho); done.
Qed.

(** X12. When there is at least one entry and no newline in the base URL, the
    output directory, the tag names or the bases, the index file read back
    and split at newlines gives the lines of the index, three for each entry,
    followed by one empty piece. *)
Theorem index_lines_read_back entries output_dir base_url index_path w :
  entries ≠ [] →
  free_of newline base_url = true →
  free_of newline (as_posix output_dir) = true →
  Forall (λ e, free_of newline e.1 = true ∧ free_of newline e.2 = true) entries →
  ∃ content,
    files (write_url_index entries output_dir base_url index_path w).2 !! index_path
    = Some content
    ∧ Str.split newline content
      = (sorted_entries entries ≫= entry_lines base_url output_dir) ++ [""]
    ∧ length (Str.split newline content) = 3 * length entries + 1.
Proof.
  intros Hne Hb Ho He. eexists. split.
  { unfold write_url_index. py_simpl. rewrite lookup_insert_eq.
    by rewrite index_lines_entries. }
  assert (Str.split newline
            (Str.join nl (sorted_entries entries ≫= entry_lines base_url output_dir)
             +:+ nl)
          = (sorted_entries entries ≫= entry_lines base_url output_dir) ++ [""]) as Hs.
  { apply split_join_lines.
    - destruct (sorted_entries entries) as [|e l] eqn:E; [|done].
      pose proof (sorted_entries_perm entries) as Hperm. rewrite E in Hperm.
      apply Permutation_nil in Hperm. done.
    - rewrite <- (sorted_entries_perm entries) in He.
      induction He as [|e l [H1 H2] _ IH]; [done|].
      rewrite bind_cons. apply Forall_app. split; [|done].
      unfold entry_lines.
      repeat constructor; rewrite !free_of_append, H1;
        rewrite index_url_free; try done; by rewrite free_of_append, H2. }
  split; [exact Hs|]. rewrite Hs, length_app.
  assert (∀ l, length (l ≫= entry_lines base_url output_dir) = 3 * length l) as Hlen.
  { intros l. induction l as [|e l IH]; [done|].
    rewrite bind_cons, length_app, IH. simpl. lia. }
  rewrite Hlen, (Permutation_length (sorted_entries_perm entries)). simpl. lia.
Qed.

Lemma index_lines_read_back_witness :
  [("East US", "East_US")] ≠ []
  ∧ free_of newline "https://x.test" = true
  ∧ free_of newline (as_posix (parse_path "edl")) = true
  ∧ Forall (λ e : string * string,
              free_of newline e.1 = true ∧ free_of newline e.2 = true)
      [("East US", "East_US")]
  ∧ ∃ content,
      files (write_url_index [("East US", "East_US")] (parse_path "edl")
               "https://x.test" (parse_path "index.csv") empty_world).2
        !! parse_path "index.csv" = Some content
      ∧ Str.split newline content
        = (sorted_entries [("East US", "East_US")]
             ≫= entry_lines "https://x.test" (parse_path "edl")) ++ [""]
      ∧ length (Str.split newline content) = 3 * length [("East US", "East_US")] + 1.
Proof.
  assert (Forall (λ e : string * string,
                    free_of newline e.1 = true ∧ free_of newline e.2 = true)
            [("East US", "East_US")]) as H by (repeat constructor).
  split; [discriminate|]. split; [reflexivity|]. split; [reflexivity|].
  split; [exact H|].
  apply (index_lines_read_back [("East US", "East_US")] (parse_path "edl")
           "https://x.test" (parse_path "index.csv") empty_world);
    [discriminate|reflexivity|reflexivity|exact H].
Defined.

Lemma key_le_antisym x y : key_le x y = true → key_le y x = true → sort_key x = sort_key y.
Proof. unfold key_le, sort_key. apply String.leb_antisym. Qed.

(** Two sorted lists with the same entries and no repeated key are equal. *)
Lemma sorted_unique l1 l2 :
  StronglySorted (λ a b, key_le a b = true) l1 →
  StronglySorted (λ a b, key_le a b = true) l2 →
  l1 ≡ₚ l2 → NoDup (sort_key <$> l1) → l1 = l2.
Proof.
  intros H1. revert l2. induction H1 as [|x t1 Ht1 IH Hx]; intros l2 H2 Hperm Hnd.
  - by apply Permutation_nil in Hperm.
  - destruct H2 as [|y t2 Ht2 Hy].
    { symmetry in Hperm. by apply Permutation_nil in Hperm. }
    rewrite fmap_cons in Hnd. apply NoDup_cons in Hnd as [Hk Hnd].
    assert (x = y) as <-.
    { assert (x ∈ y :: t2) as Hxin by (rewrite <- Hperm; by apply elem_of_cons; left).
      assert (y ∈ x :: t1) as Hyin by (rewrite Hperm; by apply elem_of_cons; left).
      apply elem_of_cons in Hxin as [?|Hxin]; [done|].
      apply elem_of_cons in Hyin as [?|Hyin]; [done|].
      rewrite Forall_forall in Hx, Hy.
      destruct Hk. rewrite (key_le_antisym x y (Hx _ Hyin) (Hy _ Hxin)).
      by apply list_elem_of_fmap_2. }
    f_equal. apply IH; [done| |done]. by apply Permutation_cons_inv in Hperm.
Qed.

(** X13. When no two entries have the same lower-cased tag name, the index
    does not depend on the order in which the entries are given: any
    reordering of them gives the same run of [write_url_index]. *)
Theorem index_order_independent entries entries' output_dir base_url index_path :
  entries ≡ₚ entries' → NoDup (sort_key <$> entries) →
  sorted_entries entries = sorted_entries entries'
  ∧ write_url_index entries output_dir base_url index_path
    = write_url_index entries' output_dir base_url index_path.
Proof.
  intros Hperm Hnd.
  assert (sorted_entries entries = sorted_entries entries') as H.
  { apply sorted_unique; try apply sorted_entries_sorted.
    - by rewrite !sorted_entries_perm.
    - by rewrite sorted_entries_perm. }
  split; [exact H|]. unfold write_url_index, index_lines. by rewrite H.
Qed.

Lemma index_order_independent_witness :
  [("b", "b"); ("A", "A")] ≡ₚ [("A", "A"); ("b", "b")]
  ∧ NoDup (sort_key <$> [("b", "b"); ("A", "A")])
  ∧ sorted_entries [("b", "b"); ("A", "A")] = sorted_entries [("A", "A"); ("b", "b")].
Proof.
  assert ([("b", "b"); ("A", "A")] ≡ₚ [("A", "A"); ("b", "b")]) as Hp
    by apply perm_swap.
  assert (NoDup (sort_key <$> [("b", "b"); ("A", "A")])) as Hn.
  { apply NoDup_cons. split; [|apply NoDup_singleton].
    intros Hin. apply elem_of_cons in Hin as [Hin|Hin]; [discriminate|].
    by apply elem_of_nil in Hin. }
  split; [exact Hp|]. split; [exact Hn|].
  exact (proj1 (index_order_independent _ _ (parse_path "edl") "https://x.test"
                  (parse_path "index.csv") Hp Hn)).
Defined.

(** ** The URL the locator picks *)

Lemma match_tail_file_name s m :
  match_tail s = Some m → file_name_part m ∧ ∃ post, s = m +:+ post.
Proof.
  intros H. apply match_tail_sound in H as (ds & post & -> & -> & Hne & Hd).
  split; [by exists ds|by exists post].
Qed.

Lemma file_name_part_matches t post : file_name_part t → is_Some (match_tail (t +:+ post)).
Proof.
  intros (ds & -> & Hne & Hd). rewrite !append_assoc.
  by rewrite match_tail_complete.
Qed.

(** The run of characters before the file name is as long as a match
    allows. *)
Lemma match_body_greedy s m :
  match_body s = Some m →
  ∃ body t post,
    m = body +:+ t ∧ s = m +:+ post ∧ free_of dquote body = true ∧ file_name_part t
    ∧ ∀ body' t' post',
        s = body' +:+ t' +:+ post' → free_of dquote body' = true →
        file_name_part t' → String.length body' ≤ String.length body.
Proof.
  assert (∀ s m, match_tail s = Some m →
            (∀ body' t' post', s = body' +:+ t' +:+ post' →
               free_of dquote body' = true → file_name_part t' → body' = "") →
            ∃ body t post,
              m = body +:+ t ∧ s = m +:+ post ∧ free_of dquote body = true
              ∧ file_name_part t
              ∧ ∀ body' t' post',
                  s = body' +:+ t' +:+ post' → free_of dquote body' = true →
                  file_name_part t' → String.length body' ≤ String.length body)
    as Htail.
  { intros s0 m0 H Honly. apply match_tail_file_name in H as [Hm [post ->]].
    exists "", m0, post. repeat split; try done.
    intros body' t' post' E Hb Ht. by rewrite (Honly _ _ _ E Hb Ht). }
  revert m. induction s as [|c s IH]; intros m; simpl.
  - intros H. apply (Htail _ _ H). intros body' t' post' E _ _.
    destruct body'; [done|]. by rewrite append_cons in E.
  - destruct (Ascii.eqb_spec c dquote) as [->|Hc].
    + intros H. apply (Htail _ _ H). intros body' t' post' E Hb _.
      destruct body' as [|x body']; [done|]. rewrite append_cons in E.
      injection E as <- _. unfold free_of in Hb. simpl in Hb. done.
    + destruct (match_body s) as [m0|] eqn:E0.
      * intros [= <-].
        destruct (IH m0 eq_refl) as (body & t & post & -> & -> & Hb & Ht & Hmax).
        exists (String c body), t, post. repeat split; try done.
        { unfold free_of in *. simpl. rewrite Hb, andb_true_r.
          apply negb_true_iff. by apply Ascii.eqb_neq. }
        intros body' t' post' E Hb' Ht'.
        destruct body' as [|x body']; [simpl; lia|].
        rewrite !append_cons in E. injection E as <- E.
        unfold free_of in Hb'. simpl in Hb'. apply andb_prop in Hb' as [_ Hb'].
        simpl. apply le_n_S. by apply (Hmax body' t' post').
      * intros H. apply (Htail _ _ H). intros body' t' post' E Hb' Ht'.
        destruct body' as [|x body']; [done|].
        rewrite append_cons in E. injection E as <- E.
        unfold free_of in Hb'. simpl in Hb'. apply andb_prop in Hb' as [_ Hb'].
        destruct (match_body_complete body' (t' +:+ post') Hb'
                    (file_name_part_matches t' post' Ht')) as [m' Hm'].
        rewrite <- E in Hm'. congruence.
Qed.

Lemma matches_pattern_free u : matches_pattern u → free_of dquote u = true.
Proof.
  intros (body & ds & -> & Hb & _ & Hd). rewrite !free_of_append.
  unfold free_of at 2. rewrite Hb. simpl.
  assert (free_of dquote ds = true) as ->; [|done].
  unfold free_of. clear Hb. induction ds as [|d ds IH]; [done|].
  simpl in *. apply andb_prop in Hd as [Hd1 Hd2]. rewrite (IH Hd2), andb_true_r.
  apply negb_true_iff. apply Ascii.eqb_neq. intros ->. done.
Qed.

Lemma re_search_leftmost s u :
  re_search s = Some u →
  ∃ pre post,
    s = pre +:+ u +:+ post ∧ match_at (u +:+ post) = Some u
    ∧ ∀ pre' u' post',
        s = pre' +:+ u' +:+ post' → matches_pattern u' →
        String.length pre ≤ String.length pre'.
Proof.
  induction s as [|c s IH]; simpl; [done|].
  destruct (match_at (String c s)) as [m|] eqn:E.
  - intros [= <-]. destruct (match_at_sound _ _ E) as [_ [post Hs]].
    exists "", post. rewrite append_nil_l, <- Hs. repeat split; try done.
    intros; simpl; lia.
  - intros H. destruct (IH H) as (pre & post & -> & Hat & Hleft).
    exists (String c pre), post. repeat split; try done.
    intros pre' u' post' E' Hm'. destruct pre' as [|x pre'].
    + rewrite append_nil_l in E'. destruct (match_at_complete u' post' Hm') as [m' Hm].
      rewrite <- E' in Hm. congruence.
    + rewrite append_cons in E'. injection E' as <- E'. simpl.
      apply le_n_S. by apply (Hleft pre' u' post').
Qed.

(** X14. The URL [find_json_url] returns is a piece of the page that the
    pattern matches, with no double quote in it; no match starts before it in
    the page; and among the matches that start where it starts, its run of
    characters before the file name is the longest. *)
Theorem find_json_url_leftmost_greedy html u :
  find_json_url html = Some u →
  ∃ pre post body t,
    html = pre +:+ u +:+ post
    ∧ u = url_head +:+ body +:+ t
    ∧ free_of dquote body = true ∧ file_name_part t
    ∧ free_of dquote u = true
    ∧ (∀ pre' u' post',
         html = pre' +:+ u' +:+ post' → matches_pattern u' →
         String.length pre ≤ String.length pre')
    ∧ (∀ body' t' post',
         u +:+ post = url_head +:+ body' +:+ t' +:+ post' →
         free_of dquote body' = true → file_name_part t' →
         String.length body' ≤ String.length body).
Proof.
  intros H. pose proof (find_json_url_sound _ _ H) as [Hm _].
  unfold find_json_url in H.
  apply re_search_leftmost in H as (pre & post & -> & Hat & Hleft).
  unfold match_at in Hat.
  destruct (Str.strip_prefix url_head (u +:+ post)) as [rest|] eqn:E1; [|done].
  cbn [mbind option_bind] in Hat.
  destruct (match_body rest) as [m|] eqn:E2; [|done].
  cbn [mbind option_bind] in Hat. injection Hat as <-.
  apply strip_prefix_spec in E1.
  apply match_body_greedy in E2 as (body & t & post0 & -> & -> & Hb & Ht & Hmax).
  exists pre, post, body, t. repeat split; try done.
  - by apply matches_pattern_free.
  - intros body' t' post' E Hb' Ht'. apply (Hmax body' t' post'); try done.
    rewrite E1 in E. by apply String.app_inj in E.
Qed.

Lemma find_json_url_leftmost_greedy_witness :
  find_json_url ("<a href=" +:+ String dquote example_json_url +:+ String dquote ">")
  = Some example_json_url
  ∧ ∃ pre post body t,
      "<a href=" +:+ String dquote example_json_url +:+ String dquote ">"
      = pre +:+ example_json_url +:+ post
      ∧ example_json_url = url_head +:+ body +:+ t
      ∧ free_of dquote body = true ∧ file_name_part t
      ∧ free_of dquote example_json_url = true
      ∧ (∀ pre' u' post',
           "<a href=" +:+ String dquote example_json_url +:+ String dquote ">"
           = pre' +:+ u' +:+ post' → matches_pattern u' →
           String.length pre ≤ String.length pre')
      ∧ (∀ body' t' post',
           example_json_url +:+ post = url_head +:+ body' +:+ t' +:+ post' →
           free_of dquote body' = true → file_name_part t' →
           String.length body' ≤ String.length body).
Proof.
  assert (find_json_url
            ("<a href=" +:+ String dquote example_json_url +:+ String dquote ">")
          = Some example_json_url) as H by (vm_compute; reflexivity).
  split; [exact H|]. exact (find_json_url_leftmost_greedy _ _ H).
Defined.

(** ** The driver: failures on the way and the optional index *)

Section DriverMoreFacts.

Variable http_get : string → option string.
Variable decode_ignore : string → string.
Variable json_loads : string → option json.
Variable ip_network : json → option ip_version.
Variable py_repr : json → string.

Abbreviation fetch_document := (download_servicetags_json http_get decode_ignore json_loads).
Abbreviation run := (main http_get decode_ignore json_loads ip_network py_repr).

(** The run of the locator from the page on which the URL is found. *)
Lemma download_found save_path w page u :
  http_get DETAILS_URL = Some page →
  find_json_url (decode_ignore page) = Some u →
  fetch_document save_path w
  = match http_get u with
    | None =>
        (Raise (URLError u),
         World (files w) (dirs w)
           (stderr w ++ ["Found ServiceTags JSON URL: " +:+ u])
           (requests w ++ [DETAILS_URL; u]))
    | Some data =>
        let w' :=
          match save_path with
          | Some p =>
              World (<[p := data]> (files w)) (dirs w)
                (stderr w ++ ["Found ServiceTags JSON URL: " +:+ u;
                              "Saved raw ServiceTags JSON to " +:+ as_posix p])
                (requests w ++ [DETAILS_URL; u])
          | None =>
              World (files w) (dirs w)
                (stderr w ++ ["Found ServiceTags JSON URL: " +:+ u])
                (requests w ++ [DETAILS_URL; u])
          end in
        match json_loads data with
        | Some root => (Ok root, w')
        | None => (Raise DecodeError, w')
        end
    end.
Proof.
  intros Hpage Hu. destruct (find_json_url_truthy _ _ Hu) as (Ht & _ & _).
  unfold download_servicetags_json, fetch_url, urlopen. py_simpl.
  rewrite Hpage. cbn [negb]. rewrite Hu, Ht. cbn [negb]. rewrite Ht.
  cbn [negb default from_option id].
  destruct (http_get u) as [data|];
    [|cbn [files dirs stderr requests]; by rewrite <- app_assoc].
  destruct save_path; destruct (json_loads data);
    cbn [files dirs stderr requests]; by rewrite <- !app_assoc.
Qed.

(** X15. A transfer failure on the details page is fatal: the locator raises
    after that one request and does not try the confirmation page. When the
    details page is fetched and holds no link but the confirmation page holds
    one, the document is fetched from that link, after exactly three
    requests, and returned as parsed. *)
Theorem locator_transport_and_fallback save_path w :
  (http_get DETAILS_URL = None →
   fetch_document save_path w
   = (Raise (URLError DETAILS_URL),
      World (files w) (dirs w) (stderr w) (requests w ++ [DETAILS_URL])))
  ∧ (∀ page page2 u data root,
       http_get DETAILS_URL = Some page →
       find_json_url (decode_ignore page) = None →
       http_get CONFIRM_URL = Some page2 →
       find_json_url (decode_ignore page2) = Some u →
       http_get u = Some data → json_loads data = Some root →
       (fetch_document save_path w).1 = Ok root
       ∧ requests (fetch_document save_path w).2
         = requests w ++ [DETAILS_URL; CONFIRM_URL; u]).
Proof.
  split.
  - intros Hd. unfold download_servicetags_json, fetch_url, urlopen. py_simpl.
    by rewrite Hd.
  - intros page page2 u data root Hpage Hn Hpage2 Hu Hdata Hroot.
    destruct (find_json_url_truthy _ _ Hu) as (Ht & _ & _).
    unfold download_servicetags_json, fetch_url, urlopen. py_simpl.
    rewrite Hpage. cbn [negb]. rewrite Hn. cbn [negb url_truthy].
    rewrite Hpage2. cbn [negb]. rewrite Hu, Ht.
    cbn [negb default from_option id]. rewrite Hdata.
    destruct save_path; rewrite Hroot; cbn [fst snd requests];
      by rewrite <- !app_assoc.
Qed.

(** X16. The raw document is saved before it is parsed: when [--save-json]
    is given and the downloaded bytes cannot be decoded, or decode to a
    document that [extract_values] rejects, [main] raises with the saved copy
    written and nothing else: no output directory, no list file, no index. *)
Theorem raw_document_saved_before_parsing a w page u data p :
  http_get DETAILS_URL = Some page →
  find_json_url (decode_ignore page) = Some u →
  http_get u = Some data →
  arg_save_json a = Some p → p ≠ "" →
  let w' :=
    World (<[parse_path p := data]> (files w)) (dirs w)
      (stderr w ++ ["Found ServiceTags JSON URL: " +:+ u;
                    "Saved raw ServiceTags JSON to " +:+ as_posix (parse_path p)])
      (requests w ++ [DETAILS_URL; u]) in
  (json_loads data = None → run a w = (Raise DecodeError, w'))
  ∧ (∀ root e, json_loads data = Some root → extract_values root = Raise e →
       run a w = (Raise e, w')).
Proof.
  intros Hpage Hu Hdata Hsave Hp. simpl.
  assert (url_truthy (arg_save_json a) = true) as Hts.
  { rewrite Hsave. simpl. unfold Str.truthy. apply String.eqb_neq in Hp.
    by rewrite Hp. }
  split.
  - intros Hl. unfold main. unfold mbind at 1, Py_bind at 1.
    rewrite (download_found _ _ _ _ Hpage Hu), Hdata, Hl, Hts, Hsave. done.
  - intros root e Hl He. unfold main. unfold mbind at 1, Py_bind at 1.
    rewrite (download_found _ _ _ _ Hpage Hu), Hdata, Hl, Hts, Hsave.
    cbn [default from_option id]. unfold mbind at 1, Py_bind at 1, lift.
    by rewrite He.
Qed.

(** [main], step by step. *)
Lemma main_unfold a w :
  run a w
  = let output_dir := parse_path (arg_output_dir a) in
    let save_json_path :=
      if url_truthy (arg_save_json a)
      then Some (parse_path (default "" (arg_save_json a))) else None in
    match fetch_document save_json_path w with
    | (Raise e, w1) => (Raise e, w1)
    | (Ok root, w1) =>
        match extract_values root with
        | Raise e => (Raise e, w1)
        | Ok values =>
            match build_edls ip_network py_repr output_dir (arg_include_tags a)
                    (arg_exclude_tags a) values w1 with
            | (Raise e, w2) => (Raise e, w2)
            | (Ok entries, w2) =>
                if url_truthy (arg_url_index a)
                then (Ok 0%Z,
                      (write_url_index entries output_dir (arg_url_base a)
                         (parse_path (default "" (arg_url_index a))) w2).2)
                else (Ok 0%Z, w2)
            end
        end
    end.
Proof.
  unfold main. cbv zeta. unfold mbind at 1, Py_bind at 1.
  destruct (fetch_document _ w) as [[root|e] w1]; [|done].
  unfold mbind at 1, Py_bind at 1, lift.
  destruct (extract_values root) as [values|e]; [|done].
  unfold mbind at 1, Py_bind at 1.
  destruct (build_edls _ _ _ _ _ values w1) as [[entries|e] w2]; [|done].
  destruct (url_truthy (arg_url_index a)); [|done].
  unfold write_url_index. by py_simpl.
Qed.

(** X17. The index is an extra: with or without [--url-index], [main]
    returns the same, makes the same requests and leaves every file the same,
    but for the file at the index path itself. *)
Theorem index_is_optional a w :
  (run a w).1 = (run (without_index a) w).1
  ∧ requests (run a w).2 = requests (run (without_index a) w).2
  ∧ ∀ p, p ≠ parse_path (default "" (arg_url_index a)) →
         files (run a w).2 !! p = files (run (without_index a) w).2 !! p.
Proof.
  rewrite !main_unfold. unfold without_index.
  cbn [arg_output_dir arg_include_tags arg_exclude_tags arg_save_json
       arg_url_index arg_url_base url_truthy]. cbv zeta.
  destruct (fetch_document _ w) as [[root|e] w1]; [|done].
  destruct (extract_values root) as [values|e]; [|done].
  destruct (build_edls _ _ _ _ _ values w1) as [[entries|e] w2]; [|done].
  destruct (url_truthy (arg_url_index a)); [|done].
  unfold write_url_index. py_simpl.
  repeat split. intros p Hp. by rewrite lookup_insert_ne.
Qed.

End DriverMoreFacts.

Lemma locator_transport_and_fallback_witness :
  fallback_get DETAILS_URL = Some "<html>details</html>"
  ∧ find_json_url "<html>details</html>" = None
  ∧ fallback_get CONFIRM_URL
    = Some ("<a href=" +:+ String dquote example_json_url +:+ String dquote ">")
  ∧ find_json_url ("<a href=" +:+ String dquote example_json_url +:+ String dquote ">")
    = Some example_json_url
  ∧ fallback_get example_json_url = Some "document"
  ∧ example_loads "document" = Some (JObject [("values", JArray [example_tag])])
  ∧ requests (download_servicetags_json fallback_get id example_loads None
                empty_world).2
    = [DETAILS_URL; CONFIRM_URL; example_json_url]
  ∧ (λ _ : string, @None string) DETAILS_URL = None
  ∧ download_servicetags_json (λ _, None) id example_loads None empty_world
    = (Raise (URLError DETAILS_URL), World ∅ ∅ [] [DETAILS_URL]).
Proof.
  destruct (locator_transport_and_fallback fallback_get id example_loads None
              empty_world) as [_ Hfb].
  destruct (locator_transport_and_fallback (λ _, None) id example_loads None
              empty_world) as [Hfail _].
  split; [reflexivity|]. split; [vm_compute; reflexivity|].
  split; [reflexivity|]. split; [vm_compute; reflexivity|].
  split; [reflexivity|]. split; [reflexivity|]. split.
  - apply (Hfb "<html>details</html>"
             ("<a href=" +:+ String dquote example_json_url +:+ String dquote ">")
             example_json_url "document"
             (JObject [("values", JArray [example_tag])]));
      first [reflexivity | vm_compute; reflexivity].
  - split; [reflexivity|]. exact (Hfail eq_refl).
Defined.

Lemma raw_document_saved_before_parsing_witness :
  link_get DETAILS_URL
  = Some ("<a href=" +:+ String dquote example_json_url +:+ String dquote ">")
  ∧ find_json_url ("<a href=" +:+ String dquote example_json_url +:+ String dquote ">")
    = Some example_json_url
  ∧ link_get example_json_url = Some "document"
  ∧ arg_save_json saving_args = Some "raw.json" ∧ "raw.json" ≠ ""
  ∧ malformed_loads "document" = Some (JObject [("other", JArray [])])
  ∧ extract_values (JObject [("other", JArray [])]) = Raise (ValueError no_values_msg)
  ∧ main link_get id malformed_loads example_ip_network example_repr saving_args
      empty_world
    = (Raise (ValueError no_values_msg),
       World (<[parse_path "raw.json" := "document"]> ∅) ∅
         ["Found ServiceTags JSON URL: " +:+ example_json_url;
          "Saved raw ServiceTags JSON to " +:+ as_posix (parse_path "raw.json")]
         [DETAILS_URL; example_json_url]).
Proof.
  assert (find_json_url
            ("<a href=" +:+ String dquote example_json_url +:+ String dquote ">")
          = Some example_json_url) as Hu by (vm_compute; reflexivity).
  split; [reflexivity|]. split; [exact Hu|]. split; [reflexivity|].
  split; [reflexivity|]. split; [discriminate|]. split; [reflexivity|].
  split; [reflexivity|].
  destruct (raw_document_saved_before_parsing link_get id malformed_loads
              example_ip_network example_repr saving_args empty_world
              ("<a href=" +:+ String dquote example_json_url +:+ String dquote ">")
              example_json_url "document" "raw.json" eq_refl Hu eq_refl eq_refl
              ltac:(discriminate)) as [_ Hbad].
  exact (Hbad (JObject [("other", JArray [])]) (ValueError no_values_msg)
           eq_refl eq_refl).
Defined.

(** ** Instances of the properties of [build_edls] *)

(** A string among the records stops the run after the first record. *)
Lemma build_edls_stops_at_unreadable_witness :
  Forall (λ tag, record_ok tag = true) [example_tag]
  ∧ tag_fields (JString "junk") = Raise AttributeError
  ∧ build_edls example_ip_network example_repr out_dir None None
      ([example_tag] ++ JString "junk" :: [named_tag "A"]) empty_world
    = (Raise AttributeError,
       foldl (tag_effect example_ip_network example_repr out_dir None None)
         (after_mkdir out_dir empty_world) [example_tag]).
Proof.
  assert (Forall (λ tag, record_ok tag = true) [example_tag]) as H
    by (repeat constructor).
  split; [exact H|]. split; [reflexivity|].
  exact (proj2 (build_edls_stops_at_unreadable example_ip_network example_repr
                  out_dir None None [example_tag] (JString "junk") [named_tag "A"]
                  AttributeError empty_world H eq_refl)).
Defined.

(** A record named by the number 5 raises when no include set is given. *)
Lemma non_string_name_witness :
  tag_fields numbered_tag = Ok (JInt 5, JArray [JString "10.0.0.0/8"])
  ∧ truthy (JInt 5) = true ∧ truthy (JArray [JString "10.0.0.0/8"]) = true
  ∧ (∀ s, JInt 5 ≠ JString s)
  ∧ build_edls_body example_ip_network example_repr out_dir None None
      numbered_tag [] empty_world
    = (Raise AttributeError, empty_world)
  ∧ build_edls_body example_ip_network example_repr out_dir (Some ["A"]) None
      numbered_tag [] empty_world
    = (Ok [], empty_world).
Proof.
  split; [reflexivity|]. split; [reflexivity|]. split; [reflexivity|].
  split; [discriminate|]. split.
  - apply (non_string_name example_ip_network example_repr out_dir None None
             numbered_tag (JInt 5) (JArray [JString "10.0.0.0/8"]) [] empty_world);
      first [reflexivity | discriminate].
  - apply (non_string_name example_ip_network example_repr out_dir (Some ["A"]) None
             numbered_tag (JInt 5) (JArray [JString "10.0.0.0/8"]) [] empty_world);
      first [reflexivity | discriminate].
Defined.

(** The run of the end-to-end scenario makes no request and leaves a file
    that is none of its own untouched. *)
Lemma build_edls_frame_witness :
  build_edls example_ip_network example_repr out_dir None None [example_tag]
    empty_world
  = (Ok [("Tag1", "Tag1")],
     (build_edls example_ip_network example_repr out_dir None None [example_tag]
        empty_world).2)
  ∧ requests (build_edls example_ip_network example_repr out_dir None None
                [example_tag] empty_world).2 = []
  ∧ (parse_path "out/Old.txt" ∉ entry_paths out_dir [("Tag1", "Tag1")])
  ∧ files (build_edls example_ip_network example_repr out_dir None None
             [example_tag] empty_world).2 !! parse_path "out/Old.txt"
    = files empty_world !! parse_path "out/Old.txt".
Proof.
  assert (build_edls example_ip_network example_repr out_dir None None [example_tag]
            empty_world
          = (Ok [("Tag1", "Tag1")],
             (build_edls example_ip_network example_repr out_dir None None
                [example_tag] empty_world).2)) as H.
  { apply injective_projections; [vm_compute|]; reflexivity. }
  assert (parse_path "out/Old.txt" ∉ entry_paths out_dir [("Tag1", "Tag1")]) as Hp.
  { vm_compute. intros Hin.
    repeat (apply elem_of_cons in Hin as [Hin|Hin]; [discriminate|]).
    by apply elem_of_nil in Hin. }
  destruct (build_edls_frame example_ip_network example_repr out_dir None None
              [example_tag] empty_world _ _ H) as (Hr & _ & _ & Hfr).
  split; [exact H|]. split; [exact Hr|]. split; [exact Hp|].
  exact (Hfr _ eq_refl _ Hp).
Defined.

(** The records named [a b] and [a_b] share the base [a_b]; the files hold
    the prefixes of the second. *)
Lemma last_record_wins_witness :
  Forall (λ tag, record_ok tag = true) [tag_with "a b" [JString "10.0.0.0/8"]]
  ∧ tag_with "a b" [JString "10.0.0.0/8"] ∈ [tag_with "a b" [JString "10.0.0.0/8"]]
  ∧ entry_of None None (tag_with "a b" [JString "10.0.0.0/8"])
    = Some ("a b", normalise_filename "a_b")
  ∧ tag_fields (tag_with "a_b" [JString "2001:db8::/32"])
    = Ok (JString "a_b", JArray [JString "2001:db8::/32"])
  ∧ files (build_edls example_ip_network example_repr out_dir None None
             ([tag_with "a b" [JString "10.0.0.0/8"]]
              ++ [tag_with "a_b" [JString "2001:db8::/32"]]) empty_world).2
      !! base_path out_dir (normalise_filename "a_b")
    = Some (render example_repr [JString "2001:db8::/32"]).
Proof.
  assert (Forall (λ tag, record_ok tag = true) [tag_with "a b" [JString "10.0.0.0/8"]])
    as H by (repeat constructor).
  assert (tag_with "a b" [JString "10.0.0.0/8"] ∈ [tag_with "a b" [JString "10.0.0.0/8"]])
    as Hin by (apply elem_of_cons; by left).
  split; [exact H|]. split; [exact Hin|]. split; [reflexivity|].
  split; [reflexivity|].
  destruct (last_record_wins example_ip_network example_repr out_dir None None
              [tag_with "a b" [JString "10.0.0.0/8"]]
              (tag_with "a b" [JString "10.0.0.0/8"]) "a b"
              (tag_with "a_b" [JString "2001:db8::/32"]) "a_b"
              [JString "2001:db8::/32"] empty_world H Hin eq_refl eq_refl
              ltac:(discriminate) ltac:(discriminate) eq_refl) as (_ & F & _).
  exact F.
Defined.

(** After the records named [X] and [X-v4], the v4 file of [X] holds the
    prefixes of [X-v4]. *)
Lemma variant_suffix_collision_witness :
  Forall (λ tag, record_ok tag = true) [tag_with "X" [JString "10.0.0.0/8"]]
  ∧ tag_fields (tag_with "X-v4" [JString "2001:db8::/32"])
    = Ok (JString ("X" +:+ "-v4"), JArray [JString "2001:db8::/32"])
  ∧ [JString "2001:db8::/32"] ≠ []
  ∧ passes_filters None None (JString ("X" +:+ "-v4")) = true
  ∧ files (build_edls example_ip_network example_repr out_dir None None
             ([tag_with "X" [JString "10.0.0.0/8"]]
              ++ [tag_with "X-v4" [JString "2001:db8::/32"]]) empty_world).2
      !! ipv4_path out_dir (normalise_filename "X")
    = Some (render example_repr [JString "2001:db8::/32"]).
Proof.
  assert (Forall (λ tag, record_ok tag = true) [tag_with "X" [JString "10.0.0.0/8"]])
    as H by (repeat constructor).
  split; [exact H|]. split; [reflexivity|]. split; [discriminate|].
  split; [reflexivity|].
  exact (proj2 (variant_suffix_collision example_ip_network example_repr out_dir
                  None None [tag_with "X" [JString "10.0.0.0/8"]]
                  (tag_with "X-v4" [JString "2001:db8::/32"]) "X"
                  [JString "2001:db8::/32"] empty_world H eq_refl
                  ltac:(discriminate) eq_refl)).
Defined.

(** ** [build_edls]: prefix lists of another type, and the files of the pairs *)

Section BuildTypesFacts.

Variable ip_network : json → option ip_version.
Variable py_repr : json → string.
Variable output_dir : Path.
Variables include_tags exclude_tags : option (list string).

(** X18. The prefix list is iterated whatever its type. When it is a
    non-empty string, the record is written with each character of the string
    as a prefix of its own; when it is a non-empty object, with each key; when
    it is a true number or boolean, [TypeError] is raised and nothing is
    written. *)
Theorem prefixes_of_another_type tag s prefixes written w :
  tag_fields tag = Ok (JString s, prefixes) →
  truthy (JString s) && truthy prefixes
    && passes_filters include_tags exclude_tags (JString s) = true →
  build_edls_body ip_network py_repr output_dir include_tags exclude_tags
    tag written w
  = match prefixes with
    | JString text =>
        (Ok (written ++ [(s, normalise_filename s)]),
         after_tag ip_network py_repr output_dir (normalise_filename s)
           (JString <$> Str.chars text) w)
    | JObject kvs =>
        (Ok (written ++ [(s, normalise_filename s)]),
         after_tag ip_network py_repr output_dir (normalise_filename s)
           ((λ kv, JString kv.1) <$> kvs) w)
    | JArray l =>
        (Ok (written ++ [(s, normalise_filename s)]),
         after_tag ip_network py_repr output_dir (normalise_filename s) l w)
    | _ => (Raise TypeError, w)
    end.
Proof.
  intros Hf Ht.
  rewrite (build_edls_body_unfold _ _ _ _ _ _ _ _ _ _ Hf), Ht.
  by destruct prefixes.
Qed.

Lemma build_edls_loop_present values written w entries w' :
  build_edls_loop ip_network py_repr output_dir include_tags exclude_tags
    values written w = (Ok entries, w') →
  ∃ added, entries = written ++ added
    ∧ ∀ p, p ∈ entry_paths output_dir added → is_Some (files w' !! p).
Proof.
  revert written w. induction values as [|tag values IH]; intros written w; simpl.
  - py_simpl. intros [= <- <-]. exists []. split; [by rewrite app_nil_r|].
    intros p Hp. by apply elem_of_nil in Hp.
  - unfold mbind, Py_bind.
    destruct (build_edls_body_cases ip_network py_repr output_dir include_tags
                exclude_tags tag written w)
      as [[e ->]|[->|(s & prefixes & l & _ & _ & _ & ->)]]; [done|apply IH|].
    intros H.
    destruct (build_edls_loop_frame _ _ _ _ _ _ _ _ _ _ H) as (_ & _ & Hdom & _).
    apply IH in H as (added & -> & Hpres).
    exists ((s, normalise_filename s) :: added). split; [by rewrite <- app_assoc|].
    intros p Hp. unfold entry_paths in Hp. rewrite bind_cons in Hp.
    apply elem_of_app in Hp as [Hp|Hp]; [|by apply Hpres].
    apply Hdom. cbn [after_tag files fst snd] in *.
    rewrite !lookup_insert. repeat case_decide; try done.
    repeat (apply elem_of_cons in Hp as [Hp|Hp]; [congruence|]).
    by apply elem_of_nil in Hp.
Qed.

(** X19. When [build_edls] returns, the three files of every pair it returns
    are there: the file names that [write_url_index] will put in the index
    all name files that were written. *)
Theorem returned_pairs_have_files values w entries w' :
  build_edls ip_network py_repr output_dir include_tags exclude_tags values w
  = (Ok entries, w') →
  ∀ name base, (name, base) ∈ entries →
    base = normalise_filename name
    ∧ is_Some (files w' !! joinpath output_dir (base +:+ ".txt"))
    ∧ is_Some (files w' !! joinpath output_dir (base +:+ "-v4.txt"))
    ∧ is_Some (files w' !! joinpath output_dir (base +:+ "-v6.txt")).
Proof.
  unfold build_edls. py_simpl. intros H name base Hin.
  destruct (build_edls_loop_entries _ _ _ _ _ _ _ _ _ _ H) as (added' & E' & Hall).
  apply build_edls_loop_present in H as (added & -> & Hpres).
  simpl in *. subst added'. rewrite Forall_forall in Hall.
  destruct (Hall _ Hin) as [_ Hbase]. split; [exact Hbase|].
  assert (∀ p, p ∈ [base_path output_dir base; ipv4_path output_dir base;
                    ipv6_path output_dir base] → is_Some (files w' !! p)) as Hp.
  { intros p Hp. apply Hpres. unfold entry_paths.
    apply list_elem_of_bind. by exists (name, base). }
  repeat split; apply Hp; rewrite !elem_of_cons; auto.
Qed.

End BuildTypesFacts.

(** A prefix list given as the string [1.2] is written as the three lines
    [1], [.] and [2]. *)
Lemma prefixes_of_another_type_witness :
  tag_fields string_prefixes_tag = Ok (JString "T", JString "1.2")
  ∧ truthy (JString "T") && truthy (JString "1.2")
    && passes_filters None None (JString "T") = true
  ∧ build_edls_body example_ip_network example_repr out_dir None None
      string_prefixes_tag [] empty_world
    = (Ok [("T", "T")],
       after_tag example_ip_network example_repr out_dir "T"
         [JString "1"; JString "."; JString "2"] empty_world).
Proof.
  split; [reflexivity|]. split; [reflexivity|].
  exact (prefixes_of_another_type example_ip_network example_repr out_dir None None
           string_prefixes_tag "T" (JString "1.2") [] empty_world eq_refl eq_refl).
Defined.

(** The pair of the end-to-end scenario has its three files. *)
Lemma returned_pairs_have_files_witness :
  build_edls example_ip_network example_repr out_dir None None [example_tag]
    empty_world
  = (Ok [("Tag1", "Tag1")],
     (build_edls example_ip_network example_repr out_dir None None [example_tag]
        empty_world).2)
  ∧ ("Tag1", "Tag1") ∈ [("Tag1", "Tag1")]
  ∧ is_Some (files (build_edls example_ip_network example_repr out_dir None None
                      [example_tag] empty_world).2
               !! joinpath out_dir ("Tag1" +:+ "-v6.txt")).
Proof.
  assert (build_edls example_ip_network example_repr out_dir None None [example_tag]
            empty_world
          = (Ok [("Tag1", "Tag1")],
             (build_edls example_ip_network example_repr out_dir None None
                [example_tag] empty_world).2)) as H.
  { apply injective_projections; [vm_compute|]; reflexivity. }
  assert (("Tag1", "Tag1") ∈ [("Tag1", "Tag1")]) as Hin
    by (apply elem_of_cons; by left).
  split; [exact H|]. split; [exact Hin|].
  destruct (returned_pairs_have_files example_ip_network example_repr out_dir
              None None [example_tag] empty_world _ _ H "Tag1" "Tag1" Hin)
    as (_ & _ & _ & F).
  exact F.
Defined.
